(** * The survey dashboards [studentsurvey.py] and [tuto_sv.py]

    A shallow embedding of the two Streamlit scripts: the memoised CSV
    loader, the pandas aggregations behind each chart, and the page
    each script renders, followed by the properties of the
    specification that were checked against them.

    Conventions of the model.
    - A pandas table is an ordered association list from column names
      to columns; a column is a list of cells; a cell is missing
      ([NaN]), a number, or a string.
    - Numbers are exact rationals.  The rounding of float64 arithmetic
      is outside the model.
    - The network and the CSV parser behind [pd.read_csv] are one
      function from a locator to either a table or the message of the
      exception raised.
    - A script run is a computation over the page rendered so far, the
      table objects it allocated, the [st.cache_data] store and the log
      of network fetches; the last two survive from one run to the
      next. *)

From Stdlib Require Import QArith String Ascii Lia.
From stdpp Require Import gmap strings list sorting.

Open Scope string_scope.

(** ** The pandas operations the scripts call *)

Module Pandas.

Inductive cell := NaN | Num (q : Q) | Str (s : string).

Abbreviation Series := (list cell) (only parsing).

(** Columns in file order, looked up by label. *)
Abbreviation DataFrame := (list (string * Series)) (only parsing).

Definition isna (c : cell) : bool :=
  match c with NaN => true | _ => false end.

Definition notna (c : cell) : bool := negb (isna c).

(** [Series.dropna()]. *)
Definition dropna (s : Series) : Series := List.filter notna s.

(** [==] on cells: numbers by value, strings by content, and a
    missing value equal to nothing. *)
Definition cell_eqb (a b : cell) : bool :=
  match a, b with
  | Num x, Num y => Qeq_bool x y
  | Str x, Str y => String.eqb x y
  | _, _ => false
  end.

(** Order used when group keys are sorted: numbers before strings,
    missing last. *)
Definition cell_leb (a b : cell) : bool :=
  match a, b with
  | Num x, Num y => Qle_bool x y
  | Num _, _ => true
  | Str _, Num _ => false
  | Str x, Str y => String.leb x y
  | Str _, NaN => true
  | NaN, NaN => true
  | NaN, _ => false
  end.

(** [df[c]]: [None] stands for the [KeyError] of a missing label. *)
Fixpoint getcol (c : string) (df : DataFrame) : option Series :=
  match df with
  | [] => None
  | (k, s) :: df' => if String.eqb k c then Some s else getcol c df'
  end.

(** [df[c] = s]: overwrite in place, or append a new last column. *)
Fixpoint setcol (c : string) (s : Series) (df : DataFrame) : DataFrame :=
  match df with
  | [] => [(c, s)]
  | (k, old) :: df' =>
      if String.eqb k c then (k, s) :: df' else (k, old) :: setcol c s df'
  end.

(** [df[[c1; ...; cn]]], the columns in the order asked for. *)
Definition select (cs : list string) (df : DataFrame) : option DataFrame :=
  mapM (fun c => s ← getcol c df; Some (c, s)) cs.

Definition columns (df : DataFrame) : list string := map fst df.

(** [df.shape[0]]. *)
Definition nrows (df : DataFrame) : nat :=
  match df with [] => 0 | (_, s) :: _ => length s end.

(** [pd.to_numeric(_, errors='coerce')] on one cell.  [parse] is the
    parser pandas applies to a string; a string it rejects becomes
    missing. *)
Definition to_numeric (parse : string -> option Q) (c : cell) : cell :=
  match c with
  | Str s => match parse s with Some q => Num q | None => NaN end
  | _ => c
  end.

(** The numbers of a column with the missing ones skipped; a string
    makes the reduction fail ([TypeError]). *)
Fixpoint numbers (s : Series) : option (list Q) :=
  match s with
  | [] => Some []
  | NaN :: s' => numbers s'
  | Num q :: s' => qs ← numbers s'; Some (q :: qs)
  | Str _ :: _ => None
  end.

Definition Qsum (qs : list Q) : Q := foldr Qplus 0%Q qs.

Definition Qmean (qs : list Q) : Q :=
  Qred (Qsum qs / inject_Z (Z.of_nat (length qs))).

(** [Series.mean()] with the default [skipna=True]: undefined (NaN)
    when nothing is left. *)
Definition mean (s : Series) : option cell :=
  qs ← numbers s;
  Some (match qs with [] => NaN | _ => Num (Qmean qs) end).

(** Row [i] of a list of columns. *)
Definition row (cols : list Series) (i : nat) : Series :=
  map (fun s => default NaN (s !! i)) cols.

(** [df.mean(axis=1)] over [n] rows. *)
Definition mean_axis1 (n : nat) (cols : list Series) : option Series :=
  mapM (fun i => mean (row cols i)) (seq 0 n).

(** *** Sorting

    One stable insertion sort serves every [sort_values] of the
    scripts: [leb x y] says that [x] may stand before [y]. *)
Section Sort.
Context {A : Type} (leb : A -> A -> bool).

Fixpoint insert_sorted (x : A) (l : list A) : list A :=
  match l with
  | [] => [x]
  | y :: l' => if leb x y then x :: l else y :: insert_sorted x l'
  end.

Definition stable_sort (l : list A) : list A := foldr insert_sorted [] l.
End Sort.

(** *** Counting *)

(** One more occurrence of [v] in a table of counts that lists the
    values in order of first appearance. *)
Fixpoint count_add (v : cell) (t : list (cell * nat)) : list (cell * nat) :=
  match t with
  | [] => [(v, 1)]
  | (k, n) :: t' =>
      if cell_eqb k v then (k, S n) :: t' else (k, n) :: count_add v t'
  end.

Definition count_table (s : Series) : list (cell * nat) :=
  fold_left (fun t v => count_add v t) (dropna s) [].

Definition count_desc (e1 e2 : cell * nat) : bool := (snd e2 <=? snd e1)%nat.

(** [Series.value_counts()]: missing values dropped, most frequent
    value first, equal counts in order of first appearance. *)
Definition value_counts (s : Series) : list (cell * nat) :=
  stable_sort count_desc (count_table s).

(** [Series.unique()] without the missing value. *)
Definition unique (s : Series) : list cell := map fst (count_table s).

(** *** Grouping *)

(** Positions of the rows whose key is [k]. *)
Definition rows_where (k : cell) (keys : Series) : list nat :=
  List.filter (fun i => cell_eqb (default NaN (keys !! i)) k)
              (seq 0 (length keys)).

Definition take_rows (idx : list nat) (s : Series) : Series :=
  map (fun i => default NaN (s !! i)) idx.

(** [df.groupby(by)[cs]]: one sub-table per distinct non-missing key,
    keys ascending. *)
Definition groupby (by_ : string) (cs : list string) (df : DataFrame)
  : option (list (cell * DataFrame)) :=
  keys ← getcol by_ df;
  sel ← select cs df;
  Some (map (fun k => (k, map (fun cs => (fst cs, take_rows (rows_where k keys) (snd cs))) sel))
            (stable_sort cell_leb (unique keys))).

(** *** Strings *)

Fixpoint interleave (sep s : string) : string :=
  match s with
  | EmptyString => EmptyString
  | String c s' => String c (sep ++ interleave sep s')
  end.

Fixpoint replace_from (old new s : string) (skip : nat) : string :=
  match s with
  | EmptyString => EmptyString
  | String c s' =>
      match skip with
      | S k => replace_from old new s' k
      | O =>
          if String.prefix old s
          then new ++ replace_from old new s' (String.length old - 1)
          else String c (replace_from old new s' 0)
      end
  end.

(** [str.replace(old, new)], every occurrence, left to right. *)
Definition str_replace (old new s : string) : string :=
  match old with
  | EmptyString => new ++ interleave new s
  | _ => replace_from old new s 0
  end.

(** [str.startswith]. *)
Definition startswith (p s : string) : bool := String.prefix p s.

End Pandas.

(** ** The Streamlit page, its cache and the objects of a script run *)

Module Streamlit.
Import Pandas.

(** What a chart builder hands to plotly: the kind of chart, its
    title and the aggregated rows. *)
Inductive chart :=
| Pie (title : string) (rows : list (cell * nat))
| Line (title : string) (rows : list (option string * cell))
       (categoryarray : list (option string))
| Box (title : string) (rows : list (nat * string * cell))
| Bar (title : string) (rows : list (cell * nat))
| GroupedBar (title : string) (rows : list (cell * string * cell))
| MeanBar (title : string) (rows : list (string * cell)).

Inductive element :=
| PageConfig (page_title : string)
| Header (body : string)
| Title (body : string)
| Subheader (body : string)
| Markdown (body : string)
| Metric (label value help : string)
| Error (body : string)
| Info (body : string)
| SidebarInfo (body : string)
| Dataframe (data : DataFrame)
| PlotlyChart (fig : chart).

(** A cache entry: the value the function returned and the elements
    it emitted, which a cache hit replays. *)
Abbreviation cached := (option DataFrame * list element)%type (only parsing).

Record state := State {
  page : list element;
  heap : list DataFrame;
  cache : gmap string cached;
  fetched : list string
}.

Definition set_page (p : list element) (s : state) : state :=
  State p (heap s) (cache s) (fetched s).
Definition set_heap (h : list DataFrame) (s : state) : state :=
  State (page s) h (cache s) (fetched s).
Definition set_cache (c : gmap string cached) (s : state) : state :=
  State (page s) (heap s) c (fetched s).
Definition set_fetched (f : list string) (s : state) : state :=
  State (page s) (heap s) (cache s) f.

(** A script ends early through [st.stop()] or through an exception
    nobody catches; either way the page rendered so far stays. *)
Inductive abort := StopException | Uncaught.

Inductive outcome (A : Type) :=
| Ret (a : A) (s : state)
| Abort (e : abort) (s : state).
Arguments Ret {A} a s.
Arguments Abort {A} e s.

Definition final {A} (o : outcome A) : state :=
  match o with Ret _ s => s | Abort _ s => s end.

Definition M (A : Type) : Type := state -> outcome A.

#[global] Instance M_ret : MRet M := fun A a s => Ret a s.
#[global] Instance M_bind : MBind M := fun A B f m s =>
  match m s with
  | Ret a s' => f a s'
  | Abort e s' => Abort e s'
  end.

Definition raise {A} (e : abort) : M A := fun s => Abort e s.

(** A pandas call that can raise. *)
Definition try_ {A} (o : option A) : M A :=
  match o with Some a => mret a | None => raise Uncaught end.

Fixpoint for_each {A} (f : A -> M unit) (l : list A) : M unit :=
  match l with
  | [] => mret tt
  | x :: l' => f x ;; for_each f l'
  end.

(** *** Table objects *)

Definition ref := nat.

Definition new (df : DataFrame) : M ref :=
  fun s => Ret (length (heap s)) (set_heap (heap s ++ [df]) s).

Definition deref (r : ref) : M DataFrame :=
  fun s => match heap s !! r with
           | Some df => Ret df s
           | None => Abort Uncaught s
           end.

Definition assign (r : ref) (df : DataFrame) : M unit :=
  fun s => Ret tt (set_heap (<[r := df]> (heap s)) s).

(** [data.copy()]. *)
Definition copy (r : ref) : M ref := df ← deref r; new df.

(** [data[c] = s]. *)
Definition setitem (r : ref) (c : string) (s : Series) : M unit :=
  df ← deref r; assign r (setcol c s df).

(** *** Page elements *)

Definition emit (e : element) : M unit :=
  fun s => Ret tt (set_page (page s ++ [e]) s).

Definition stop : M unit := raise StopException.

(** *** The network *)

Inductive fetch_result := Fetched (df : DataFrame) | Failed (e : string).

(** [pd.read_csv(url)] inside a [try]: the request is logged. *)
Definition read_csv (net : string -> fetch_result) (url : string)
  : M fetch_result :=
  fun s => Ret (net url) (set_fetched (fetched s ++ [url]) s).

(** *** [@st.cache_data]

    A hit returns the stored value and replays the stored elements
    without running the function.  A miss runs it, and stores what it
    returned together with what it emitted.  No entry is removed. *)
Definition cache_data (f : string -> M (option DataFrame)) (url : string)
  : M (option DataFrame) :=
  fun s =>
    match cache s !! url with
    | Some (v, msgs) => Ret v (set_page (page s ++ msgs) s)
    | None =>
        match f url (set_page [] s) with
        | Ret v s' =>
            Ret v (set_cache (<[url := (v, page s')]> (cache s'))
                             (set_page (page s ++ page s') s'))
        | Abort e s' => Abort e (set_page (page s ++ page s') s')
        end
    end.

(** A fresh run in the same process: an empty page, no objects, the
    cache and the fetch log as they were left. *)
Definition rerun (script : M unit) (s : state) : state :=
  final (script (State [] [] (cache s) (fetched s))).

Definition boot : state := State [] [] ∅ [].

End Streamlit.

(** ** [studentsurvey.py] *)

Module StudentSurvey.
Import Pandas Streamlit.

Definition URL : string :=
  "https://raw.githubusercontent.com/Wanioooo/tuto-SV/refs/heads/main/arts_faculty_data.csv".

(** The body of [load_data], before the decorator. *)
Definition load_data_body (net : string -> fetch_result) (url : string)
  : M (option DataFrame) :=
  r ← read_csv net url;
  match r with
  | Fetched arts_df => mret (Some arts_df)
  | Failed e =>
      emit (Error ("🚨 An error occurred while loading data: " ++ e)) ;;
      mret None
  end.

Definition load_data (net : string -> fetch_result) : string -> M (option DataFrame) :=
  cache_data (load_data_body net).

(** *** [clean_gpa_data] *)

Definition gpa_cols : list string :=
  [ "1st Year Semester 1"; "1st Year Semester 2"; "1st Year Semester 3";
    "2nd Year Semester 1"; "2nd Year Semester 2"; "2nd Year Semester 3";
    "3rd Year Semester 1"; "3rd Year Semester 2"; "3rd Year Semester 3";
    "4th Year Semester 1"; "4th Year Semester 2"; "4th Year Semester 3" ].

Definition semester_order : list string :=
  [ "1Y S1"; "1Y S2"; "1Y S3";
    "2Y S1"; "2Y S2"; "2Y S3";
    "3Y S1"; "3Y S2"; "3Y S3";
    "4Y S1"; "4Y S2"; "4Y S3" ].

(** The two lines of [str.replace] calls on the semester label. *)
Definition relabel (name : string) : string :=
  let name := str_replace " Year Semester " "Y S" name in
  str_replace "4th" "4"
    (str_replace "3rd" "3" (str_replace "2nd" "2" (str_replace "1st" "1" name))).

(** [pd.Categorical(_, categories, ordered=True)] on one label: a
    label outside the categories becomes missing. *)
Definition categorical (categories : list string) (x : string) : option string :=
  if bool_decide (x ∈ categories) then Some x else None.

Fixpoint index_of (x : string) (l : list string) : nat :=
  match l with
  | [] => 0
  | y :: l' => if String.eqb y x then 0 else S (index_of x l')
  end.

(** The code of a category; the missing category sorts last. *)
Definition code (categories : list string) (x : option string) : nat :=
  match x with
  | Some x => index_of x categories
  | None => length categories
  end.

Definition semester_leb (r1 r2 : option string * cell) : bool :=
  (code semester_order (fst r1) <=? code semester_order (fst r2))%nat.

(** [data[gpa_cols].mean().reset_index()]. *)
Definition column_means (cs : list string) (df : DataFrame)
  : option (list (string * cell)) :=
  sel ← select cs df;
  mapM (fun '(c, s) => m ← mean s; Some (c, m)) sel.

(** [data[col] = pd.to_numeric(data[col], errors='coerce')]. *)
Definition coerce_column (parse : string -> option Q) (data : ref)
           (col : string) : M unit :=
  df ← deref data;
  s ← try_ (getcol col df);
  setitem data col (map (to_numeric parse) s).

Definition clean_gpa_data (parse : string -> option Q) (data : ref)
  : M (list (option string * cell)) :=
  for_each (coerce_column parse data) gpa_cols ;;
  df ← deref data;
  gpa_means ← try_ (column_means gpa_cols df);
  let gpa_means := map (fun r => (relabel (fst r), snd r)) gpa_means in
  let gpa_means :=
    map (fun r => (categorical semester_order (fst r), snd r)) gpa_means in
  let gpa_means := stable_sort semester_leb gpa_means in
  mret (List.filter (fun r => notna (snd r)) gpa_means).

(** *** Chart builders *)

(** [data['Gender'].value_counts().reset_index()]. *)
Definition gender_counts (df : DataFrame) : option (list (cell * nat)) :=
  s ← getcol "Gender" df;
  Some (value_counts s).

Definition plot_gender_distribution (data : ref) : M unit :=
  df ← deref data;
  counts ← try_ (gender_counts df);
  emit (PlotlyChart (Pie "Gender Distribution in Arts Faculty" counts)) ;;
  emit (Info " The people who took this survey are mostly women, making up about 76% of the total. This means the overall results mainly reflect the female students' experience in the faculty. So, the opinions of male students are less represented in this feedback.").

Definition plot_gpa_trend (parse : string -> option Q) (data : ref) : M unit :=
  c ← copy data;
  gpa_means ← clean_gpa_data parse c;
  emit (PlotlyChart (Line "Mean GPA Trend Across Academic Semesters (Arts Faculty)"
                          gpa_means (map fst gpa_means))) ;;
  emit (Info "Student grades are very consistent over their four years, never going up or down much. This shows a stable academic environment where students maintain a steady performance level. The faculty's grading seems predictable, and students aren't facing sudden difficulty changes.").

Definition expectation_cols : list string :=
  [ "Q1 [What was your expectation about the University as related to quality of education?]";
    "Q2 [What was your expectation about the University as related to quality of Faculty?]";
    "Q3 [What was your expectation about the University as related to quality of resources?]";
    "Q4 [What was your expectation about the University as related to quality of learning environment?]" ].

Definition satisfaction_col : string :=
  "Q5 [To what extent your expectation was met?]".

(** [df.melt(value_vars=...)] of a table of [n] rows: the columns one
    below the other, each value labelled with its column, under a
    fresh index. *)
Definition melt (n : nat) (df : DataFrame) : list (nat * string * cell) :=
  imap (fun j r => (j, fst r, snd r))
       (flat_map (fun '(c, s) =>
                    map (fun i => (c, default NaN (s !! i))) (seq 0 n)) df).

(** [Series.replace] with the two-entry renaming of the metric. *)
Definition rename_metric (m : string) : string :=
  if String.eqb m "Mean Expectation" then "Average Initial Expectation"
  else if String.eqb m satisfaction_col then "Expectation Met Score"
  else m.

(** The long-form table of [plot_expectation_comparison], computed
    from the table once the mean column is in it. *)
Definition expectation_plot_data (df : DataFrame)
  : option (list (nat * string * cell)) :=
  sel ← select ["Mean Expectation"; satisfaction_col] df;
  let plot_data :=
    List.filter (fun r => notna (snd r)) (melt (nrows df) sel) in
  Some (map (fun r => (fst (fst r), rename_metric (snd (fst r)), snd r)) plot_data).

Definition plot_expectation_comparison (data : ref) : M unit :=
  df ← deref data;
  sel ← try_ (select expectation_cols df);
  mean_expectation ← try_ (mean_axis1 (nrows df) (map snd sel));
  setitem data "Mean Expectation" mean_expectation ;;
  df ← deref data;
  plot_data ← try_ (expectation_plot_data df);
  emit (PlotlyChart (Box "Comparison of Initial Expectation and Expectation Met Score"
                         plot_data)) ;;
  emit (Info "The faculty has done a great job which is the students felt their initial hopes and expectations were met and then some. They were already optimistic coming in, but the program delivered even slightly better than expected. This is a very positive sign that the faculty is successfully living up to its promises.").

Definition aspect_column : string :=
  "Q7. In your opinion,the best aspect of the program is".

(** [data[aspect_column].value_counts().head(5)]. *)
Definition best_aspect_counts (df : DataFrame) : option (list (cell * nat)) :=
  s ← getcol aspect_column df;
  Some (take 5 (value_counts s)).

Definition plot_top_best_aspects (data : ref) : M unit :=
  df ← deref data;
  counts ← try_ (best_aspect_counts df);
  emit (PlotlyChart (Bar "Top 5 Best Aspects of the Program (According to Students)"
                         counts)) ;;
  emit (Info "The best things about this program are the professors and the way they teach. These two factors are the program's biggest strengths according to the students. Everything else, like resources or facilities, is seen as much less important than the quality of the teaching staff.").

Definition q_edu : string :=
  "Do you feel that the quality of education improved at EU over the last year?".
Definition q_img : string :=
  "Do you feel that the image of the University improved over the last year?".

(** [(x == 'Yes').sum()] on one column. *)
Definition count_yes (s : Series) : nat :=
  length (List.filter (fun c => cell_eqb c (Str "Yes")) s).

(** Integer division into a float: 0/0 is undefined. *)
Definition ratio (k n : nat) : cell :=
  match n with
  | O => NaN
  | S _ => Num (Z.of_nat k # Pos.of_nat n)
  end.

(** [lambda x: (x == 'Yes').sum() / x.shape[0]]. *)
Definition proportion_yes (x : DataFrame) : list (string * cell) :=
  map (fun '(c, s) => (c, ratio (count_yes s) (nrows x))) x.

Definition rename_question (q : string) : string :=
  if String.eqb q q_edu then "Quality of Education Improved"
  else if String.eqb q q_img then "University Image Improved"
  else q.

(** The melted table of proportions: one row per question and
    gender, the first question first. *)
Definition improvement_melted (df : DataFrame)
  : option (list (cell * string * cell)) :=
  groups ← groupby "Gender" [q_edu; q_img] df;
  let improvement_df := map (fun g => (fst g, proportion_yes (snd g))) groups in
  Some (flat_map (fun j =>
                    omap (fun g => r ← snd g !! j;
                                   Some (fst g, rename_question (fst r), snd r))
                         improvement_df)
                 (seq 0 2)).

Definition plot_improvement_perception_by_gender (data : ref) : M unit :=
  df ← deref data;
  melted ← try_ (improvement_melted df);
  emit (PlotlyChart (GroupedBar "Perception of University Improvement: By Gender"
                                melted)) ;;
  emit (Info "Men and women see the university's progress differently. More men think the quality of education is getting better, while more women think the university's reputation is improving. This highlights that the two groups are noticing and prioritizing different types of positive changes at the university.").

(** [data[cols] = data[cols].apply(pd.to_numeric, errors='coerce')]. *)
Definition coerce_columns (parse : string -> option Q) (data : ref)
           (cols : list string) : M unit :=
  df ← deref data;
  sel ← try_ (select cols df);
  assign data (foldl (fun d '(c, s) => setcol c (map (to_numeric parse) s) d) df sel).

(** [data[cols].mean(axis=1).mean()]. *)
Definition mean_of_row_means (cols : list string) (df : DataFrame) : option cell :=
  sel ← select cols df;
  rows ← mean_axis1 (nrows df) (map snd sel);
  mean rows.

Definition plot_policy_vs_implementation_ratings
           (parse : string -> option Q) (data : ref) : M unit :=
  df ← deref data;
  let area_evaluation_cols :=
    List.filter (startswith "Area of Evaluation") (columns df) in
  let item_cols := List.filter (startswith "Item") (columns df) in
  coerce_columns parse data area_evaluation_cols ;;
  coerce_columns parse data item_cols ;;
  df ← deref data;
  avg_area ← try_ (mean_of_row_means area_evaluation_cols df);
  avg_item ← try_ (mean_of_row_means item_cols df);
  emit (PlotlyChart (MeanBar "Average Student Rating: Policy vs. Implementation Items (Scale: 1-5)"
                             [ ("Academic/Administrative Policy", avg_area);
                               ("Specific Teaching/Support Items", avg_item) ])) ;;
  emit (Info "Students approve of the written rules and plans (policies) more than they approve of how those rules are carried out in reality. There's a small gap here. The university should focus on improving the delivery of day-to-day things, like better resources or facilities, to match the quality of its policies.").

(** *** The page, top to bottom *)

Definition preamble : M unit :=
  emit (PageConfig "Scientific Visualization") ;;
  emit (Header "Scientific Visualization") ;;
  emit (Title "🎓 Arts Faculty Student Survey Analysis") ;;
  emit (Metric "PLO 2" "3.3" "PLO 2: Cognitive Skill") ;;
  emit (Metric "PLO 3" "3.5" "PLO 3: Digital Skill") ;;
  emit (Metric "PLO 4" "4.0" "PLO 4: Interpersonal Skill") ;;
  emit (Metric "PLO 5" "4.3" "PLO 5: Communication Skill") ;;
  emit (Markdown "Exploring student demographics, academic performance, and satisfaction using Plotly visualizations.").

Definition charts (parse : string -> option Q) (df : ref) : M unit :=
  emit (Header "📊 Demographic and Academic Performance") ;;
  emit (Subheader "Gender Distribution") ;;
  plot_gender_distribution df ;;
  emit (Subheader "Mean GPA Trend") ;;
  plot_gpa_trend parse df ;;
  emit (Header "💡 Expectation and Satisfaction Analysis") ;;
  emit (Subheader "Initial Expectation vs. Satisfaction") ;;
  plot_expectation_comparison df ;;
  emit (Subheader "Top Best Aspects of the Program") ;;
  plot_top_best_aspects df ;;
  emit (Header "📈 Improvement Perception and Overall Rating") ;;
  emit (Subheader "Perception of University Improvement by Gender") ;;
  plot_improvement_perception_by_gender df ;;
  emit (Subheader "Average Rating: Policy vs. Implementation") ;;
  plot_policy_vs_implementation_ratings parse df.

Definition script (parse : string -> option Q) (net : string -> fetch_result)
  : M unit :=
  preamble ;;
  arts_df ← load_data net URL;
  (if arts_df is None then stop else mret tt) ;;
  arts_df ← try_ arts_df;
  arts_df ← new arts_df;
  df ← copy arts_df;
  emit (Header "🔍 Data Preview") ;;
  (d ← deref df; emit (Dataframe d)) ;;
  charts parse df.

End StudentSurvey.

(** ** [tuto_sv.py] *)

Module TutoSV.
Import Pandas Streamlit.

Definition URL : string :=
  "https://raw.githubusercontent.com/Wanioooo/tuto-SV/refs/heads/main/arts_faculty_data.csv".

Definition load_data_body (net : string -> fetch_result) (url : string)
  : M (option DataFrame) :=
  r ← read_csv net url;
  match r with
  | Fetched arts_df => mret (Some arts_df)
  | Failed e =>
      emit (Error ("🚨 An error occurred while loading data: " ++ e)) ;;
      mret None
  end.

Definition load_data (net : string -> fetch_result) : string -> M (option DataFrame) :=
  cache_data (load_data_body net).

(** [df.head()]. *)
Definition head (df : DataFrame) : DataFrame :=
  map (fun '(c, s) => (c, take 5 s)) df.

(** [arts_df['Gender'].value_counts().reset_index()]. *)
Definition gender_counts (df : DataFrame) : option (list (cell * nat)) :=
  s ← getcol "Gender" df;
  Some (value_counts s).

Definition run_instructions : string :=
  "To run this application, save the code as a Python file (e.g., `app.py`) and execute it using the command: 

**`streamlit run app.py`**".

Definition script (net : string -> fetch_result) : M unit :=
  emit (PageConfig "Scientific Visualization") ;;
  emit (Header "Scientific Visualization") ;;
  emit (Title "Arts Faculty Data: Gender Distribution") ;;
  emit (Markdown "Loading data and visualizing the distribution of students by gender.") ;;
  arts_df ← load_data net URL;
  match arts_df with
  | Some arts_df =>
      emit (Subheader "Raw Data Preview") ;;
      emit (Dataframe (head arts_df)) ;;
      emit (Subheader "Distribution of Gender in Arts Faculty") ;;
      counts ← try_ (gender_counts arts_df);
      emit (PlotlyChart (Pie "Distribution of Gender in Arts Faculty" counts))
  | None => mret tt
  end ;;
  emit (SidebarInfo run_instructions).

End TutoSV.

(** ** Notions used in the statements *)

Import Pandas Streamlit StudentSurvey.

(** *** Tables *)

(** The column [c] of a table that has it. *)
Definition column (df : DataFrame) (c : string) : Series :=
  default [] (getcol c df).

Definition cell_at (df : DataFrame) (c : string) (i : nat) : cell :=
  default NaN (column df c !! i).

Definition has_columns (cs : list string) (df : DataFrame) : Prop :=
  forall c, c ∈ cs -> is_Some (getcol c df).

Definition not_string (c : cell) : Prop :=
  match c with Str _ => False | _ => True end.

(** Columns that [read_csv] typed as numbers: no string in them. *)
Definition numeric_columns (cs : list string) (df : DataFrame) : Prop :=
  forall c, c ∈ cs -> Forall not_string (column df c).

(** A cell that [pd.to_numeric] cannot read: a string the parser rejects. *)
Definition non_numeric (parse : string -> option Q) (c : cell) : Prop :=
  exists s, c = Str s /\ parse s = None.

(** *** Counts *)


(** The emitted counts add up to the number of values present. *)
Definition counts_cover (column : Series) (out : list (cell * nat)) : Prop :=
  sum_list (map snd out) = length (dropna column).




(** *** Semester means *)

(** One pass of the coercion loop on the table itself. *)
Definition coerce_step (parse : string -> option Q) (d : DataFrame) (c : string)
  : DataFrame :=
  match getcol c d with
  | Some s => setcol c (map (to_numeric parse) s) d
  | None => d
  end.

(** The numbers of a column once it has been coerced, and their mean. *)
Definition coerced_values (parse : string -> option Q) (s : Series) : list Q :=
  omap (fun c => match to_numeric parse c with Num q => Some q | _ => None end) s.

Definition coerced_mean (parse : string -> option Q) (s : Series) : cell :=
  match coerced_values parse s with [] => NaN | qs => Num (Qmean qs) end.

(** One row per semester column, in the order of [gpa_cols]. *)
Definition semester_rows (parse : string -> option Q) (df : DataFrame)
  : list (option string * cell) :=
  map (fun c => (categorical semester_order (relabel c),
                 coerced_mean parse (column df c))) gpa_cols.

(** *** Expectation and satisfaction *)

(** The numbers present in row [i] of the columns [cs], and their mean. *)
Definition row_numbers (df : DataFrame) (cs : list string) (i : nat) : list Q :=
  omap (fun c => match cell_at df c i with Num q => Some q | _ => None end) cs.

Definition row_mean (df : DataFrame) (cs : list string) (i : nat) : cell :=
  match row_numbers df cs i with [] => NaN | qs => Num (Qmean qs) end.

Definition box_title : string :=
  "Comparison of Initial Expectation and Expectation Met Score".

(** The long-form table handed to the box plot. *)
Definition expectation_rows (df : DataFrame) : list (nat * string * cell) :=
  map (fun r => (fst (fst r), rename_metric (snd (fst r)), snd r))
      (List.filter (fun r => notna (snd r))
         (melt (nrows df)
            [("Mean Expectation", map (row_mean df expectation_cols) (seq 0 (nrows df)));
             (satisfaction_col, column df satisfaction_col)])).

(** The claim that a row with a missing operand leaves no entry, at one
    table of [n] rows: entry [i] is the expectation of row [i] and
    entry [n + i] its satisfaction. *)
Definition drops_incomplete_rows (df : DataFrame) : Prop :=
  forall s' rows caption,
    plot_expectation_comparison 0 (State [] [df] ∅ []) = Ret tt s' ->
    page s' = [PlotlyChart (Box box_title rows); Info caption] ->
    forall i c, i < nrows df -> c ∈ satisfaction_col :: expectation_cols ->
                cell_at df c i = NaN ->
                forall j m x, (j, m, x) ∈ rows -> j <> i /\ j <> nrows df + i.

(** *** Proportions *)

(** The rows of one gender, and those among them that answered "Yes". *)
Definition group_rows (df : DataFrame) (g : cell) : list nat :=
  rows_where g (column df "Gender").

Definition yes_rows (df : DataFrame) (q : string) (g : cell) : list nat :=
  List.filter (fun i => cell_eqb (cell_at df q i) (Str "Yes")) (group_rows df g).

Definition yes_fraction (df : DataFrame) (q : string) (g : cell) : Q :=
  Z.of_nat (length (yes_rows df q g)) # Pos.of_nat (length (group_rows df g)).

(** Each question column with the label it is plotted under. *)
Definition questions : list (string * string) :=
  [ (q_edu, "Quality of Education Improved");
    (q_img, "University Image Improved") ].

Definition improvement_title : string :=
  "Perception of University Improvement: By Gender".

Definition gender_keys (df : DataFrame) : list cell :=
  stable_sort cell_leb (unique (column df "Gender")).

Definition proportion (df : DataFrame) (q : string) (k : cell) : cell :=
  ratio (count_yes (take_rows (group_rows df k) (column df q)))
        (length (group_rows df k)).

(** *** Pages *)

Definition error_message (e : string) : element :=
  Error ("🚨 An error occurred while loading data: " ++ e).

Definition is_metric (e : element) : bool :=
  match e with Metric _ _ _ => true | _ => false end.



(** The label and value of every metric tile on a page. *)
Definition tiles (p : list element) : list (string * string) :=
  omap (fun e => match e with Metric l v _ => Some (l, v) | _ => None end) p.


(** What is on the page of [studentsurvey.py] before the data is asked for. *)
Definition preamble_page : list element :=
  [ PageConfig "Scientific Visualization";
    Header "Scientific Visualization";
    Title "🎓 Arts Faculty Student Survey Analysis";
    Metric "PLO 2" "3.3" "PLO 2: Cognitive Skill";
    Metric "PLO 3" "3.5" "PLO 3: Digital Skill";
    Metric "PLO 4" "4.0" "PLO 4: Interpersonal Skill";
    Metric "PLO 5" "4.3" "PLO 5: Communication Skill";
    Markdown "Exploring student demographics, academic performance, and satisfaction using Plotly visualizations." ].

(** The same for [tuto_sv.py]. *)
Definition tuto_preamble_page : list element :=
  [ PageConfig "Scientific Visualization";
    Header "Scientific Visualization";
    Title "Arts Faculty Data: Gender Distribution";
    Markdown "Loading data and visualizing the distribution of students by gender." ].

(** [studentsurvey.py] from the point where the loader has answered. *)
Definition after_loading (parse : string -> option Q) (arts_df : option DataFrame)
  : M unit :=
  (if arts_df is None then stop else mret tt) ;;
  arts_df ← try_ arts_df;
  arts_df ← new arts_df;
  df ← copy arts_df;
  emit (Header "🔍 Data Preview") ;;
  (d ← deref df; emit (Dataframe d)) ;;
  charts parse df.

(** [tuto_sv.py] from the same point. *)
Definition tuto_after_loading (arts_df : option DataFrame) : M unit :=
  match arts_df with
  | Some arts_df =>
      emit (Subheader "Raw Data Preview") ;;
      emit (Dataframe (TutoSV.head arts_df)) ;;
      emit (Subheader "Distribution of Gender in Arts Faculty") ;;
      counts ← try_ (TutoSV.gender_counts arts_df);
      emit (PlotlyChart (Pie "Distribution of Gender in Arts Faculty" counts))
  | None => mret tt
  end ;;
  emit (SidebarInfo TutoSV.run_instructions).

(** *** The serving process *)

(** One thing that can happen in the life of the process: a call of
    either loader, or a run of either script, against whatever the
    network answers at that moment. *)
Inductive step : relation state :=
| step_load net url s v s' :
    load_data net url s = Ret v s' -> step s s'
| step_load_tuto net url s v s' :
    TutoSV.load_data net url s = Ret v s' -> step s s'
| step_run parse net s :
    step s (rerun (script parse net) s)
| step_run_tuto net s :
    step s (rerun (TutoSV.script net) s).

Definition evolves : relation state := rtc step.




(** *** Relations between the states before and after a computation *)

(** [m] takes every state to a state related to it by [R], however it ends. *)
Definition respects {A} (R : relation state) (m : M A) : Prop :=
  forall s, R s (final (m s)).

(** The cache and the fetch log are what they were, and no metric tile
    was added. *)
Definition only_renders (s s' : state) : Prop :=
  cache s' = cache s /\ fetched s' = fetched s
  /\ tiles (page s') = tiles (page s).

Definition same_heap (s s' : state) : Prop := heap s' = heap s.

(** The first [n] table objects are what they were. *)
Definition stable_below (n : nat) (s s' : state) : Prop :=
  take n (heap s') = take n (heap s).

(** The first table object, the one the loader returned, is what it was. *)
Definition keeps_loaded (s s' : state) : Prop :=
  forall t, heap s !! 0 = Some t -> heap s' !! 0 = Some t.

(** Whatever was on the page is still there, in front. *)
Definition page_grows (s s' : state) : Prop := page s `prefix_of` page s'.


(** *** Ratings *)



Definition item_cols (df : DataFrame) : list string :=
  List.filter (startswith "Item") (columns df).




(** *** Ranges *)



(** *** Sample inputs *)

(** A parser for the samples: it reads two literals. *)
Definition sample_parse (s : string) : option Q :=
  if String.eqb s "3.5" then Some (7 # 2)%Q
  else if String.eqb s "4" then Some 4%Q
  else None.

Definition no_network : string -> fetch_result := fun _ => Failed "timed out".

Definition three_genders : DataFrame := [("Gender", [Str "F"; Str "F"; Str "M"])].

Definition six_aspects : DataFrame :=
  [(aspect_column,
    [Str "Faculty"; Str "Curriculum"; Str "Library"; Str "Campus"; Str "Peers"; Str "Labs"])].

(** One respondent who answered every expectation question. *)
Definition one_respondent : DataFrame :=
  (map (fun c => (c, [Num 4%Q])) expectation_cols ++ [(satisfaction_col, [Num 5%Q])])%list.

(** A respondent who skipped the first expectation question. *)
Definition skipped_q1 : DataFrame :=
  (("Q1 [What was your expectation about the University as related to quality of education?]",
    [NaN])
   :: map (fun c => (c, [Num 4%Q])) (drop 1 expectation_cols)
   ++ [(satisfaction_col, [Num 5%Q])])%list.

Definition one_rating : DataFrame := [("Area of Evaluation 1", [Str "good"])].

(** Grades of two students: one semester on record, the rest unreadable. *)
Definition two_transcripts : DataFrame :=
  ("1st Year Semester 1", [Num 3%Q; Str "4"])
  :: map (fun c => (c, [Str "n/a"; Str "absent"])) (drop 1 gpa_cols).

Definition three_answers : DataFrame :=
  [ ("Gender", [Str "F"; Str "M"; Str "F"]);
    (q_edu, [Str "Yes"; Str "No"; Str "No"]);
    (q_img, [Str "Yes"; Str "Yes"; NaN]) ].

(** Three respondents, and the best aspect two of them named. *)
Definition small_survey : DataFrame :=
  [ ("Gender", [Str "F"; Str "F"; Str "M"]);
    (aspect_column, [Str "Faculty"; Str "Library"; Str "Faculty"; NaN]) ].

Definition network_up : string -> fetch_result := fun _ => Fetched small_survey.

(** Ratings of two respondents, one of them typed in as text. *)
Definition two_ratings : DataFrame :=
  [ ("Area of Evaluation 1", [Num 4%Q; Str "3.5"]);
    ("Item 1", [Num 5%Q; NaN]);
    ("Comment", [Str "fine"; Str "4"]) ].

(** A network that serves a table without a Gender column. *)
Definition ratings_served : string -> fetch_result := fun _ => Fetched two_ratings.

(** Seven respondents: more than the preview shows. *)
Definition seven_students : DataFrame :=
  [ ("Gender", [Str "F"; Str "F"; Str "M"; Str "F"; NaN; Str "M"; Str "F"]) ].

Definition students_served : string -> fetch_result := fun _ => Fetched seven_students.

(** ** Lists, sorting and counting *)

Lemma map_fmap {A B} (f : A -> B) (l : list A) : map f l = f <$> l.
Proof. reflexivity. Qed.

Section ListFacts.
Context {A : Type}.

Lemma elem_of_filter (P : A -> bool) (l : list A) x :
  x ∈ List.filter P l <-> x ∈ l /\ P x = true.
Proof. rewrite !list_elem_of_In. apply filter_In. Qed.

Lemma filter_sublist (P : A -> bool) (l : list A) : List.filter P l `sublist_of` l.
Proof.
  induction l as [|x l IH]; simpl; [done|].
  destruct (P x); by constructor.
Qed.


Lemma filter_length_le (P : A -> bool) l : length (List.filter P l) <= length l.
Proof. induction l as [|x l IH]; simpl; [done|]. destruct (P x); simpl; lia. Qed.

Lemma filter_map_comm {B} (P : B -> bool) (f : A -> B) l :
  List.filter P (map f l) = map f (List.filter (fun x => P (f x)) l).
Proof.
  induction l as [|x l IH]; simpl; [done|]. rewrite IH. by destruct (P (f x)).
Qed.

Lemma lookup_map_seq (f : nat -> A) n j :
  map f (seq 0 n) !! j = if decide (j < n) then Some (f j) else None.
Proof.
  rewrite map_fmap, list_lookup_fmap. case_decide.
  - by rewrite lookup_seq_lt.
  - by rewrite lookup_seq_ge by lia.
Qed.


End ListFacts.

Lemma sum_list_perm (l k : list nat) : l ≡ₚ k -> sum_list l = sum_list k.
Proof. induction 1; simpl; lia. Qed.

Lemma sum_take_le (l : list nat) n : sum_list (take n l) <= sum_list l.
Proof.
  revert n. induction l as [|x l IH]; intros [|n]; simpl; try lia.
  specialize (IH n). lia.
Qed.

Section SortFacts.
Context {A : Type} (leb : A -> A -> bool).

Lemma insert_sorted_perm x l : insert_sorted leb x l ≡ₚ x :: l.
Proof.
  induction l as [|y l IH]; simpl; [done|].
  destruct (leb x y); [done|].
  rewrite IH. apply Permutation_swap.
Qed.

Lemma stable_sort_perm l : stable_sort leb l ≡ₚ l.
Proof.
  induction l as [|x l IH]; simpl; [done|].
  unfold stable_sort in *. simpl. rewrite insert_sorted_perm. by rewrite IH.
Qed.



Lemma stable_sort_sorted_id l :
  Sorted (fun a b => leb a b = true) l -> stable_sort leb l = l.
Proof.
  induction 1 as [|x l Hl IH Hd]; [done|].
  change (stable_sort leb (x :: l)) with (insert_sorted leb x (stable_sort leb l)).
  rewrite IH. destruct Hd as [|y l Hxy]; simpl; [done|]. by rewrite Hxy.
Qed.

Context (leb_total : forall a b, leb a b = true \/ leb b a = true)
        (leb_trans : forall a b c, leb a b = true -> leb b c = true -> leb a c = true).


End SortFacts.

Section Counting.
Lemma sum_count_add v t :
  sum_list (map snd (count_add v t)) = S (sum_list (map snd t)).
Proof.
  induction t as [|[k n] t IH]; simpl; [done|].
  destruct (cell_eqb k v); simpl; lia.
Qed.

Lemma sum_count_fold s t :
  sum_list (map snd (fold_left (fun t v => count_add v t) s t))
  = length s + sum_list (map snd t).
Proof.
  revert t. induction s as [|v s IH]; intros t; simpl; [done|].
  rewrite IH, sum_count_add. lia.
Qed.

Lemma sum_count_table s :
  sum_list (map snd (count_table s)) = length (dropna s).
Proof. unfold count_table. rewrite sum_count_fold. simpl. lia. Qed.

Lemma sum_value_counts s :
  sum_list (map snd (value_counts s)) = length (dropna s).
Proof.
  rewrite <- sum_count_table. apply sum_list_perm.
  apply Permutation_map, stable_sort_perm.
Qed.

Lemma length_value_counts s : length (value_counts s) = length (unique s).
Proof.
  unfold unique. rewrite length_map.
  apply Permutation_length, stable_sort_perm.
Qed.




End Counting.

(** The values counted are the values present, each exactly once. *)
Section Keys.
Lemma cell_eqb_refl c : c <> NaN -> cell_eqb c c = true.
Proof.
  destruct c as [|q|x]; simpl; [done| |].
  - intros _. apply Qeq_bool_iff. reflexivity.
  - intros _. apply String.eqb_refl.
Qed.

Lemma keys_count_add v t k :
  k ∈ map fst (count_add v t) -> k ∈ map fst t \/ k = v.
Proof.
  induction t as [|[k' n] t IH]; simpl.
  - intros ->%list_elem_of_singleton. by right.
  - destruct (cell_eqb k' v); simpl; [by left|].
    intros [->|H]%elem_of_cons; [left; left|].
    destruct (IH H); [left; by right|by right].
Qed.

Lemma keys_count_add_mono v t k :
  k ∈ map fst t -> k ∈ map fst (count_add v t).
Proof.
  induction t as [|[k' n] t IH]; simpl; [by intros ?%elem_of_nil|].
  destruct (cell_eqb k' v); simpl; [done|].
  intros [->|H]%elem_of_cons; [left|right; auto].
Qed.

Lemma keys_count_add_new v t :
  v <> NaN -> exists k, k ∈ map fst (count_add v t) /\ cell_eqb k v = true.
Proof.
  intros Hv. induction t as [|[k' n] t [k [Hk Hkv]]]; simpl.
  - exists v. split; [left|by apply cell_eqb_refl].
  - destruct (cell_eqb k' v) eqn:E; simpl.
    + exists k'. split; [left|done].
    + exists k. split; [by right|done].
Qed.

Lemma keys_fold s : forall t k,
  k ∈ map fst (fold_left (fun t v => count_add v t) s t) ->
  k ∈ map fst t \/ k ∈ s.
Proof.
  induction s as [|v s IH]; intros t k; simpl; [by left|].
  intros [[H| ->]%keys_count_add|H]%IH; [by left|right; left|right; by right].
Qed.

Lemma keys_fold_mono s : forall t k,
  k ∈ map fst t -> k ∈ map fst (fold_left (fun t v => count_add v t) s t).
Proof.
  induction s as [|v s IH]; intros t k; simpl; [done|].
  intros H. by apply IH, keys_count_add_mono.
Qed.

Lemma keys_fold_complete s : forall t v,
  v ∈ s -> v <> NaN ->
  exists k, k ∈ map fst (fold_left (fun t v => count_add v t) s t)
            /\ cell_eqb k v = true.
Proof.
  induction s as [|x s IH]; intros t v; simpl; [by intros ?%elem_of_nil|].
  intros [->|H]%elem_of_cons Hv.
  - destruct (keys_count_add_new x t Hv) as [k [Hk Hkx]].
    exists k. split; [by apply keys_fold_mono|done].
  - by apply IH.
Qed.

Lemma elem_of_dropna s c : c ∈ dropna s <-> c ∈ s /\ c <> NaN.
Proof.
  unfold dropna. rewrite elem_of_filter. destruct c; cbn; intuition congruence.
Qed.

Lemma elem_of_unique s k : k ∈ unique s -> k ∈ s /\ k <> NaN.
Proof.
  unfold unique, count_table.
  intros [H|H]%keys_fold; [by apply elem_of_nil in H|].
  by apply elem_of_dropna.
Qed.

Lemma unique_complete s v :
  v ∈ s -> v <> NaN -> exists k, k ∈ unique s /\ cell_eqb k v = true.
Proof.
  intros. apply keys_fold_complete; [|done]. by apply elem_of_dropna.
Qed.

Lemma rows_where_nonempty k s : k ∈ s -> k <> NaN -> rows_where k s <> [].
Proof.
  intros [i Hi]%list_elem_of_lookup Hk. unfold rows_where.
  assert (i ∈ List.filter (fun i => cell_eqb (default NaN (s !! i)) k) (seq 0 (length s))).
  { apply elem_of_filter. split.
    - apply elem_of_seq. apply lookup_lt_Some in Hi. lia.
    - cbn beta. rewrite Hi. simpl. by apply cell_eqb_refl. }
  intros E. rewrite E in H. by apply elem_of_nil in H.
Qed.
End Keys.

(** ** Tables and table objects *)

Section Tables.
Lemma getcol_setcol c c' v df :
  getcol c' (setcol c v df) = if String.eqb c c' then Some v else getcol c' df.
Proof.
  induction df as [|[k old] df IH]; simpl.
  - destruct (String.eqb c c'); done.
  - destruct (String.eqb k c) eqn:Hkc; simpl.
    + apply String.eqb_eq in Hkc as ->. by destruct (String.eqb c c').
    + rewrite IH. destruct (String.eqb k c') eqn:Hkc'; [|done].
      apply String.eqb_eq in Hkc' as ->. by rewrite String.eqb_sym, Hkc.
Qed.

Lemma nrows_setcol c v df :
  df <> [] -> length v = nrows df -> nrows (setcol c v df) = nrows df.
Proof.
  destruct df as [|[k old] df]; [done|]. intros _ Hl. simpl in *.
  by destruct (String.eqb k c).
Qed.

Lemma select_present cs df :
  has_columns cs df ->
  select cs df = Some (map (fun c => (c, column df c)) cs).
Proof.
  unfold select, has_columns. induction cs as [|c cs IH]; intros Hp; [done|].
  destruct (Hp c) as [v Hv]; [left|]. simpl. rewrite Hv. simpl.
  rewrite IH by (intros; apply Hp; by right). simpl.
  unfold column. by rewrite Hv.
Qed.

Lemma set_heap_id s : set_heap (heap s) s = s.
Proof. by destruct s. Qed.

Lemma copy_run data s :
  copy data s = match heap s !! data with
                | Some df => Ret (length (heap s)) (set_heap (heap s ++ [df]) s)
                | None => Abort Uncaught s
                end.
Proof. unfold copy, deref, new, mbind, M_bind. by destruct (heap s !! data). Qed.
End Tables.

(** ** The GPA aggregator *)

Section GPA.
Context (parse : string -> option Q).

Lemma to_numeric_idemp c : to_numeric parse (to_numeric parse c) = to_numeric parse c.
Proof. destruct c as [| |s]; simpl; try done. by destruct (parse s). Qed.

Lemma coerce_column_run data col s df v :
  heap s !! data = Some df -> getcol col df = Some v ->
  coerce_column parse data col s
  = Ret tt (set_heap (<[data := coerce_step parse df col]> (heap s)) s).
Proof.
  intros Hd Hc. unfold coerce_column, setitem, deref, assign, coerce_step, mbind, M_bind.
  rewrite Hd, Hc. simpl. by rewrite Hd.
Qed.

Lemma getcol_coerce_step c c' df :
  is_Some (getcol c df) ->
  getcol c' (coerce_step parse df c)
  = if String.eqb c c' then map (to_numeric parse) <$> getcol c df else getcol c' df.
Proof.
  intros [v Hv]. unfold coerce_step. rewrite Hv, getcol_setcol. done.
Qed.

(** The loop over the semester columns, as one update of the table. *)
Lemma coerce_loop data cs : forall s df,
  heap s !! data = Some df -> has_columns cs df ->
  for_each (coerce_column parse data) cs s
  = Ret tt (set_heap (<[data := foldl (coerce_step parse) df cs]> (heap s)) s).
Proof.
  unfold has_columns.
  induction cs as [|c cs IH]; intros s df Hd Hcs; simpl.
  - rewrite list_insert_id by done. by rewrite set_heap_id.
  - destruct (Hcs c) as [v Hv]; [left|].
    unfold mbind, M_bind. erewrite coerce_column_run by done.
    erewrite IH.
    + simpl. by rewrite list_insert_insert_eq.
    + simpl. apply list_lookup_insert_eq. by eapply lookup_lt_Some.
    + intros c' Hc'. rewrite getcol_coerce_step by eauto.
      destruct (String.eqb c c') eqn:E.
      * rewrite Hv. by eexists.
      * apply Hcs. by right.
Qed.

Lemma getcol_coerce_all cs : forall df c,
  has_columns cs df ->
  getcol c (foldl (coerce_step parse) df cs)
  = if bool_decide (c ∈ cs) then map (to_numeric parse) <$> getcol c df
    else getcol c df.
Proof.
  unfold has_columns.
  induction cs as [|c0 cs IH]; intros df c Hcs; simpl; [done|].
  assert (Hc0 : is_Some (getcol c0 df)) by (apply Hcs; left).
  rewrite IH.
  2:{ intros c' Hc'. rewrite getcol_coerce_step by done.
      destruct (String.eqb c0 c'); [|apply Hcs; by right].
      destruct Hc0 as [v ->]. by eexists. }
  rewrite getcol_coerce_step by done.
  destruct (String.eqb c0 c) eqn:E.
  - apply String.eqb_eq in E as ->.
    rewrite (bool_decide_eq_true_2 (c ∈ c :: cs)) by left.
    destruct Hc0 as [v ->]. simpl. case_bool_decide; [|done].
    f_equal. rewrite <- list_fmap_compose. apply list_fmap_ext.
    intros _ x _. apply to_numeric_idemp.
  - apply String.eqb_neq in E.
    case_bool_decide as H1; case_bool_decide as H2; try done.
    + exfalso. apply H2. by right.
    + exfalso. apply elem_of_cons in H2 as [->|]; done.
Qed.

Lemma numbers_coerced s :
  numbers (map (to_numeric parse) s) = Some (coerced_values parse s).
Proof.
  induction s as [|c s IH]; [done|]. unfold coerced_values in *. simpl.
  destruct c as [|q|x]; simpl.
  - done.
  - by rewrite IH.
  - destruct (parse x); simpl; [by rewrite IH|done].
Qed.

Lemma mean_coerced s : mean (map (to_numeric parse) s) = Some (coerced_mean parse s).
Proof.
  unfold mean, coerced_mean. rewrite numbers_coerced. simpl.
  by destruct (coerced_values parse s).
Qed.

Lemma coerced_values_non_numeric s :
  Forall (non_numeric parse) s -> coerced_values parse s = [].
Proof.
  induction 1 as [|c s [x [-> Hx]] _ IH]; [done|].
  unfold coerced_values in *. simpl. by rewrite Hx.
Qed.

Lemma column_means_coerced cs df df' :
  has_columns cs df ->
  (forall c, c ∈ cs -> getcol c df' = map (to_numeric parse) <$> getcol c df) ->
  column_means cs df'
  = Some (map (fun c => (c, coerced_mean parse (column df c))) cs).
Proof.
  unfold column_means, select, has_columns.
  induction cs as [|c cs IH]; intros Hp Hc; [done|].
  destruct (Hp c) as [v Hv]; [left|].
  simpl. rewrite (Hc c) by left. rewrite Hv. simpl.
  assert (IH' := IH (fun c H => Hp c (list_elem_of_further _ _ _ H))
                    (fun c H => Hc c (list_elem_of_further _ _ _ H))).
  destruct (mapM _ cs) as [sel|]; simpl in *; [|done].
  rewrite mean_coerced. simpl.
  destruct (mapM _ sel); simpl in *; [|done].
  unfold column at 1. rewrite Hv. simpl. injection IH' as ->. done.
Qed.

Lemma semester_rows_tags df :
  map fst (semester_rows parse df) = map Some semester_order.
Proof. unfold semester_rows. rewrite List.map_map. reflexivity. Qed.

(** The rows come out of the relabelling already in canonical order. *)
Lemma semester_rows_sorted df :
  stable_sort semester_leb (semester_rows parse df) = semester_rows parse df.
Proof.
  apply stable_sort_sorted_id. unfold semester_rows, gpa_cols. simpl.
  repeat (constructor; try reflexivity).
Qed.

Lemma clean_gpa_data_run data s df :
  heap s !! data = Some df -> has_columns gpa_cols df ->
  clean_gpa_data parse data s
  = Ret (List.filter (fun r => notna (snd r)) (semester_rows parse df))
        (set_heap (<[data := foldl (coerce_step parse) df gpa_cols]> (heap s)) s).
Proof.
  intros Hd Hp. unfold clean_gpa_data. unfold mbind at 1, M_bind at 1.
  erewrite coerce_loop by done.
  unfold mbind, M_bind, deref. cbn [heap set_heap].
  rewrite list_lookup_insert_eq by (by eapply lookup_lt_Some).
  erewrite column_means_coerced; [|exact Hp|].
  2:{ intros c Hc. rewrite getcol_coerce_all by done.
      by rewrite bool_decide_eq_true_2. }
  cbn [try_]. unfold mret, M_ret.
  rewrite !List.map_map. cbn [fst snd].
  change (map _ gpa_cols) with (semester_rows parse df).
  by rewrite semester_rows_sorted.
Qed.

Lemma semester_tag i col tag :
  gpa_cols !! i = Some col -> semester_order !! i = Some tag ->
  categorical semester_order (relabel col) = Some tag.
Proof.
  intros Hc Ht.
  assert (H : (fun c => categorical semester_order (relabel c)) <$> gpa_cols
              = Some <$> semester_order) by reflexivity.
  apply (f_equal (fun l => l !! i)) in H.
  rewrite !list_lookup_fmap, Hc, Ht in H. simpl in H. congruence.
Qed.

Lemma semester_tag_inj i col tag c :
  gpa_cols !! i = Some col -> semester_order !! i = Some tag ->
  c ∈ gpa_cols -> categorical semester_order (relabel c) = Some tag -> c = col.
Proof.
  intros Hc Ht [j Hj]%list_elem_of_lookup Hcat.
  destruct (lookup_lt_is_Some_2 semester_order j) as [tag' Ht'].
  { apply lookup_lt_Some in Hj. exact Hj. }
  rewrite (semester_tag j c tag' Hj Ht') in Hcat. injection Hcat as ->.
  assert (NoDup semester_order) as Hnd by (apply (bool_decide_unpack _); reflexivity).
  assert (i = j) as -> by (eapply NoDup_lookup; eauto).
  congruence.
Qed.

Lemma elem_of_semester_rows df tag m i col :
  gpa_cols !! i = Some col -> semester_order !! i = Some tag ->
  (Some tag, m) ∈ List.filter (fun r => notna (snd r)) (semester_rows parse df)
  <-> m = coerced_mean parse (column df col) /\ notna m = true.
Proof.
  intros Hc Ht. rewrite elem_of_filter. simpl.
  unfold semester_rows. rewrite map_fmap, list_elem_of_fmap. split.
  - intros [(c & Heq & Hcin) Hm]. injection Heq as Hcat ->.
    split; [|done]. f_equal. f_equal. symmetry in Hcat. by eapply semester_tag_inj.
  - intros [-> Hm]. split; [|done]. exists col. split.
    + f_equal. symmetry. by eapply semester_tag.
    + by eapply list_elem_of_lookup_2.
Qed.

(** C4.  On a table that has the twelve semester columns,
    [clean_gpa_data] returns, and leaves every semester column
    coerced to numbers.  The semester tags of its output form a
    subsequence of the canonical order.  A semester whose column has
    no number after coercion has no entry, any other semester has
    exactly the mean of its numbers; so when every semester column
    holds only strings that are not numbers, the output is empty. *)
Theorem clean_gpa_data_ordered_and_defined (data : ref) (s : state) (df : DataFrame) :
  heap s !! data = Some df ->
  has_columns gpa_cols df ->
  exists out s',
    clean_gpa_data parse data s = Ret out s'
    /\ (forall c, c ∈ gpa_cols ->
          (heap s' !! data ≫= getcol c) = map (to_numeric parse) <$> getcol c df)
    /\ map fst out `sublist_of` map Some semester_order
    /\ (forall i col tag, gpa_cols !! i = Some col -> semester_order !! i = Some tag ->
          match coerced_values parse (column df col) with
          | [] => forall m, (Some tag, m) ∉ out
          | qs => forall m, (Some tag, m) ∈ out <-> m = Num (Qmean qs)
          end)
    /\ ((forall c, c ∈ gpa_cols -> Forall (non_numeric parse) (column df c)) ->
        out = []).
Proof.
  intros Hd Hp. eexists _, _. split; [by apply clean_gpa_data_run|].
  split_and!.
  - intros c Hc. cbn [heap set_heap].
    rewrite list_lookup_insert_eq by (by eapply lookup_lt_Some).
    change (Some ?d ≫= getcol c) with (getcol c d).
    rewrite getcol_coerce_all by done. by rewrite bool_decide_eq_true_2.
  - rewrite <- semester_rows_tags with (df := df).
    rewrite !map_fmap. apply fmap_sublist, filter_sublist.
  - intros i col tag Hc Ht.
    destruct (coerced_values parse (column df col)) as [|q qs] eqn:Hv.
    + intros m Hm. apply (elem_of_semester_rows _ _ _ _ _ Hc Ht) in Hm as [-> Hm].
      unfold coerced_mean in Hm. by rewrite Hv in Hm.
    + intros m. rewrite (elem_of_semester_rows _ _ _ _ _ Hc Ht).
      unfold coerced_mean. rewrite Hv.
      split; [by intros [-> _]|by intros ->].
  - intros Hall. unfold semester_rows. clear Hp.
    induction gpa_cols as [|c cs IH]; [done|]. simpl.
    unfold coerced_mean at 1.
    rewrite coerced_values_non_numeric by (apply Hall; left). simpl.
    apply IH. intros c' Hc'. apply Hall. by right.
Qed.
End GPA.

(** Each count is the number of cells that hold the value. *)
Section Occurrences.









End Occurrences.

(** ** The count aggregators *)

Section Counts.
(** C6, amended.  The gender aggregator emits counts that add up to
    the number of values present in the Gender column, and Gender =
    [F, F, M] gives [(F, 2); (M, 1)].  The best-aspect aggregator keeps
    five categories at most, so its counts add up to at most the
    number of values present, and to exactly that number when the
    column has no more than five distinct values. *)
Theorem count_aggregators_sum (df : DataFrame) (gender aspects : Series) :
  getcol "Gender" df = Some gender ->
  getcol aspect_column df = Some aspects ->
  (exists out, gender_counts df = Some out /\ counts_cover gender out)
  /\ (exists out, best_aspect_counts df = Some out
                  /\ sum_list (map snd out) <= length (dropna aspects)
                  /\ (length (unique aspects) <= 5 -> counts_cover aspects out))
  /\ gender_counts three_genders = Some [(Str "F", 2); (Str "M", 1)].
Proof.
  intros Hg Ha. split_and!.
  - exists (value_counts gender). unfold gender_counts. rewrite Hg.
    split; [done|]. apply sum_value_counts.
  - exists (take 5 (value_counts aspects)). unfold best_aspect_counts. rewrite Ha.
    split; [done|]. split.
    + rewrite <- sum_value_counts, !map_fmap, fmap_take. apply sum_take_le.
    + intros Hu. unfold counts_cover.
      rewrite take_ge by (by rewrite length_value_counts).
      apply sum_value_counts.
  - reflexivity.
Qed.

(** C6 as stated fails: six aspects named once each, five counted. *)
Lemma top5_counts_do_not_cover :
  ~ (forall out, best_aspect_counts six_aspects = Some out ->
                 counts_cover (column six_aspects aspect_column) out).
Proof.
  intros H. specialize (H _ eq_refl). unfold counts_cover in H. discriminate H.
Qed.

End Counts.

(** ** Expectation against satisfaction *)

Section Expectation.
Lemma elem_of_melt n sel j m x :
  (j, m, x) ∈ melt n sel
  <-> flat_map (fun '(c, s) => map (fun i => (c, default NaN (s !! i))) (seq 0 n)) sel !! j
      = Some (m, x).
Proof.
  unfold melt. rewrite list_elem_of_lookup. split.
  - intros [k Hk]. rewrite list_lookup_imap in Hk.
    destruct (_ !! k) as [[m' x']|] eqn:E; simpl in Hk; [|done].
    by simplify_eq.
  - intros H. exists j. rewrite list_lookup_imap, H. done.
Qed.

Lemma numbers_row df cs i :
  numeric_columns cs df ->
  numbers (map (fun c => cell_at df c i) cs) = Some (row_numbers df cs i).
Proof.
  unfold row_numbers, numeric_columns.
  induction cs as [|c cs IH]; intros Hn; [done|]. simpl.
  rewrite IH by (intros; apply Hn; by right).
  assert (Hc : not_string (cell_at df c i)).
  { unfold cell_at. destruct (column df c !! i) as [x|] eqn:E; simpl; [|done].
    eapply Forall_lookup_1; [apply Hn; left|exact E]. }
  destruct (cell_at df c i) as [|q|x]; simpl; done.
Qed.

Lemma mean_axis1_rows df cs n :
  numeric_columns cs df ->
  mean_axis1 n (map snd (map (fun c => (c, column df c)) cs))
  = Some (map (row_mean df cs) (seq 0 n)).
Proof.
  intros Hn. unfold mean_axis1. rewrite List.map_map. cbn [snd].
  generalize 0. induction n as [|n IH]; intros k; [done|].
  cbn [seq mapM map]. rewrite IH. unfold row. rewrite List.map_map.
  unfold mean. change (map (fun c => default NaN (column df c !! k)) cs)
    with (map (fun c => cell_at df c k) cs).
  rewrite numbers_row by done. simpl.
  unfold row_mean. by destruct (row_numbers df cs k).
Qed.

Lemma plot_expectation_comparison_run data s df :
  heap s !! data = Some df ->
  has_columns (satisfaction_col :: expectation_cols) df ->
  numeric_columns expectation_cols df ->
  exists caption,
    plot_expectation_comparison data s
    = Ret tt (State (page s ++ [PlotlyChart (Box box_title (expectation_rows df));
                                Info caption])
                    (<[data := setcol "Mean Expectation"
                                 (map (row_mean df expectation_cols) (seq 0 (nrows df))) df]>
                       (heap s))
                    (cache s) (fetched s)).
Proof.
  intros Hd Hp Hn.
  eexists. unfold plot_expectation_comparison, setitem, deref, assign, emit, mbind, M_bind.
  rewrite Hd. rewrite select_present by (intros c Hc; apply Hp; by right).
  cbn [try_ mret M_ret]. rewrite mean_axis1_rows by done.
  cbn [try_ mret M_ret heap set_heap]. rewrite Hd. cbn [heap set_heap].
  rewrite list_lookup_insert_eq by (by eapply lookup_lt_Some).
  unfold expectation_plot_data, select. cbn [mapM].
  rewrite !getcol_setcol, String.eqb_refl.
  replace (String.eqb "Mean Expectation" satisfaction_col) with false by reflexivity.
  destruct (Hp satisfaction_col) as [q5 Hq5]; [left|].
  rewrite Hq5. cbn [mbind option_bind mret option_ret].
  rewrite nrows_setcol.
  2:{ intros ->. done. }
  2:{ by rewrite length_map, length_seq. }
  cbn [try_ mret M_ret page set_page heap set_heap cache fetched].
  rewrite <- app_assoc. unfold expectation_rows, column. rewrite Hq5. reflexivity.
Qed.

(** Which entries the long-form table has. *)
Lemma elem_of_expectation_rows df j m x :
  (j, m, x) ∈ expectation_rows df
  <-> notna x = true
      /\ ((j < nrows df /\ m = "Average Initial Expectation"
           /\ x = row_mean df expectation_cols j)
          \/ (nrows df <= j < nrows df + nrows df /\ m = "Expectation Met Score"
              /\ x = cell_at df satisfaction_col (j - nrows df))).
Proof.
  unfold expectation_rows. rewrite map_fmap, list_elem_of_fmap.
  set (n := nrows df).
  assert (Hl : forall m0 x0,
             (j, m0, x0) ∈ melt n
               [("Mean Expectation", map (row_mean df expectation_cols) (seq 0 n));
                (satisfaction_col, column df satisfaction_col)]
             <-> (j < n /\ m0 = "Mean Expectation" /\ x0 = row_mean df expectation_cols j)
                 \/ (n <= j < n + n /\ m0 = satisfaction_col
                     /\ x0 = cell_at df satisfaction_col (j - n))).
  { intros m0 x0. rewrite elem_of_melt. cbn [flat_map]. rewrite app_nil_r.
    destruct (decide (j < n)) as [Hj|Hj].
    - rewrite lookup_app_l by (rewrite length_map, length_seq; done).
      rewrite lookup_map_seq, decide_True by done.
      rewrite lookup_map_seq, decide_True by done. simpl.
      split; [intros [= <- <-]; left; done|].
      intros [(_ & -> & ->)|(? & _)]; [done|lia].
    - rewrite lookup_app_r by (rewrite length_map, length_seq; lia).
      rewrite length_map, length_seq, lookup_map_seq.
      case_decide.
      + split; [intros [= <- <-]; right; split_and!; try done; lia|].
        intros [(? & _)|(_ & -> & ->)]; [lia|done].
      + split; [done|]. intros [(? & _)|(? & _)]; lia. }
  split.
  - intros ([[j' m0] x0] & [= -> -> ->] & [Hin Hna]%elem_of_filter).
    split; [done|]. apply Hl in Hin as [(? & -> & ->)|(? & -> & ->)]; [left|right]; done.
  - intros [Hna [(Hj & -> & ->)|(Hj & -> & ->)]].
    + exists (j, "Mean Expectation", row_mean df expectation_cols j).
      split; [done|]. apply elem_of_filter. split; [|done]. apply Hl. by left.
    + exists (j, satisfaction_col, cell_at df satisfaction_col (j - n)).
      split; [done|]. apply elem_of_filter. split; [|done]. apply Hl. by right.
Qed.

(** C2, amended.  On a table of [n] rows whose expectation columns
    are numeric, the builder hands the box plot a long-form table in
    which no entry has a missing score: a row whose four expectation
    values are all missing has no expectation entry, and a row whose
    satisfaction value is missing has no satisfaction entry.  A row
    with at least one expectation value present does have its
    expectation entry, the mean of the values present. *)
Theorem expectation_rows_skip_missing_values (data : ref) (s : state) (df : DataFrame) :
  heap s !! data = Some df ->
  has_columns (satisfaction_col :: expectation_cols) df ->
  numeric_columns expectation_cols df ->
  exists rows caption s',
    plot_expectation_comparison data s = Ret tt s'
    /\ page s' = (page s ++ [PlotlyChart (Box box_title rows); Info caption])%list
    /\ Forall (fun r => snd r <> NaN) rows
    /\ forall i, i < nrows df ->
         (row_numbers df expectation_cols i = [] -> forall m x, (i, m, x) ∉ rows)
         /\ (cell_at df satisfaction_col i = NaN ->
             forall m x, (nrows df + i, m, x) ∉ rows)
         /\ (row_numbers df expectation_cols i <> [] ->
             (i, "Average Initial Expectation",
              Num (Qmean (row_numbers df expectation_cols i))) ∈ rows).
Proof.
  intros Hd Hp Hn.
  destruct (plot_expectation_comparison_run data s df Hd Hp Hn) as [caption Hrun].
  eexists _, caption, _. split; [exact Hrun|]. split; [done|]. split.
  - apply Forall_forall. intros [[j m] x] [Hna _]%elem_of_expectation_rows.
    simpl. by intros ->.
  - intros i Hi. split_and!.
    + intros Hv m x [Hna [(_ & _ & ->)|(? & _)]]%elem_of_expectation_rows; [|lia].
      unfold row_mean in Hna. by rewrite Hv in Hna.
    + intros Hv m x [Hna [(? & _)|(_ & _ & ->)]]%elem_of_expectation_rows; [lia|].
      replace (nrows df + i - nrows df) with i in Hna by lia. by rewrite Hv in Hna.
    + intros Hv. apply elem_of_expectation_rows. split; [done|]. left.
      split_and!; try done. unfold row_mean.
      by destruct (row_numbers df expectation_cols i).
Qed.

(** C2 as stated fails: the respondent who skipped the first question
    still has an expectation entry, the mean of the other three. *)
Lemma incomplete_row_not_dropped : ~ drops_incomplete_rows skipped_q1.
Proof.
  intros H.
  refine (_ (H _ _ _ eq_refl eq_refl 0
               "Q1 [What was your expectation about the University as related to quality of education?]"
               _ _ eq_refl 0 _ _ _)).
  - intros [Hne _]. by apply Hne.
  - cbn. lia.
  - right. left.
  - left.
Qed.
End Expectation.

(** ** Proportions of "Yes" by gender *)

Section Proportion.
Lemma ratio_bounds k n :
  0 < n -> k <= n ->
  ratio k n = Num (Z.of_nat k # Pos.of_nat n)
  /\ (0 <= Z.of_nat k # Pos.of_nat n)%Q /\ (Z.of_nat k # Pos.of_nat n <= 1)%Q.
Proof.
  intros Hn Hk. destruct n as [|n]; [lia|]. split; [done|].
  unfold Qle. cbn [Qnum Qden]. rewrite <- Pos.of_nat_succ, Zpos_P_of_succ_nat.
  lia.
Qed.

Context (df : DataFrame).
Context (Hp : has_columns ["Gender"; q_edu; q_img] df).

Lemma improvement_melted_eq :
  improvement_melted df
  = Some (flat_map (fun q => map (fun k => (k, snd q, proportion df (fst q) k))
                                 (gender_keys df))
                   questions).
Proof.
  unfold improvement_melted, groupby.
  destruct (Hp "Gender") as [g Hg]; [left|].
  rewrite Hg. cbn [mbind option_bind].
  rewrite select_present by (intros c Hc; apply Hp; by right).
  cbn [mbind option_bind map seq flat_map questions fst snd].
  unfold gender_keys, proportion, group_rows, column. rewrite Hg.
  cbn [from_option id]. generalize (stable_sort cell_leb (unique g)). intros keys.
  f_equal. f_equal; [|f_equal].
  - induction keys as [|k keys IH]; [done|]. cbn. cbn in IH. rewrite IH.
    unfold take_rows at 2. by rewrite length_map.
  - induction keys as [|k keys IH]; [done|]. cbn. cbn in IH. rewrite IH.
    unfold take_rows at 2. by rewrite length_map.
Qed.

Lemma proportion_eq q k :
  k ∈ gender_keys df ->
  k ∈ column df "Gender" /\ k <> NaN /\ group_rows df k <> []
  /\ proportion df q k = Num (yes_fraction df q k)
  /\ (0 <= yes_fraction df q k)%Q /\ (yes_fraction df q k <= 1)%Q.
Proof.
  unfold gender_keys. rewrite stable_sort_perm.
  intros [Hk Hna]%elem_of_unique.
  assert (Hne := rows_where_nonempty _ _ Hk Hna). fold (group_rows df k) in Hne.
  split_and!; try done; unfold proportion, yes_fraction, yes_rows;
    assert (Hc : count_yes (take_rows (group_rows df k) (column df q))
                 = length (List.filter (fun i => cell_eqb (cell_at df q i) (Str "Yes"))
                                       (group_rows df k)))
      by (unfold count_yes, take_rows; by rewrite filter_map_comm, length_map);
    rewrite ?Hc;
    apply ratio_bounds;
    try (destruct (group_rows df k); [done|simpl; lia]);
    apply filter_length_le.
Qed.
End Proportion.

(** C8.  On a table that has the Gender column and the two question
    columns, the builder groups the rows by gender and plots, for each
    question and each gender present, the number of rows of that gender
    answering "Yes" over the number of rows of that gender; every
    proportion is a number between 0 and 1. *)
Theorem proportion_yes_by_gender (data : ref) (s : state) (df : DataFrame) :
  heap s !! data = Some df ->
  has_columns ["Gender"; q_edu; q_img] df ->
  exists rows caption,
    plot_improvement_perception_by_gender data s
    = Ret tt (set_page (page s ++ [PlotlyChart (GroupedBar improvement_title rows);
                                   Info caption]) s)
    /\ (forall g q p, (g, q, p) ∈ rows ->
          exists c, (c, q) ∈ questions
                    /\ g ∈ column df "Gender" /\ g <> NaN /\ group_rows df g <> []
                    /\ p = Num (yes_fraction df c g)
                    /\ (0 <= yes_fraction df c g)%Q /\ (yes_fraction df c g <= 1)%Q)
    /\ (forall g c q, g ∈ column df "Gender" -> g <> NaN -> (c, q) ∈ questions ->
          exists k, cell_eqb k g = true /\ (k, q, Num (yes_fraction df c k)) ∈ rows).
Proof.
  intros Hd Hp.
  exists (flat_map (fun q => map (fun k => (k, snd q, proportion df (fst q) k))
                              (gender_keys df)) questions).
  eexists. split_and!.
  - unfold plot_improvement_perception_by_gender, deref, emit, mbind, M_bind.
    rewrite Hd, improvement_melted_eq by done. cbn [try_ mret M_ret].
    destruct s. unfold set_page. cbn [page heap cache fetched].
    rewrite <- app_assoc. reflexivity.
  - intros g q p (cq & Hcq & Hin)%list_elem_of_In%in_flat_map.
    apply list_elem_of_In in Hin, Hcq.
    rewrite map_fmap in Hin. apply list_elem_of_fmap in Hin as (k & [= -> -> ->] & Hk).
    destruct (proportion_eq df (fst cq) k Hk) as (? & ? & ? & ? & ? & ?).
    exists (fst cq). by destruct cq.
  - intros g c q Hg Hna Hq.
    destruct (unique_complete _ _ Hg Hna) as (k & Hk & Hkg).
    assert (Hk' : k ∈ gender_keys df) by (unfold gender_keys; by rewrite stable_sort_perm).
    exists k. split; [done|].
    apply list_elem_of_In, in_flat_map. exists (c, q).
    split; [by apply list_elem_of_In|]. apply list_elem_of_In.
    rewrite map_fmap. apply list_elem_of_fmap. exists k. split; [|done].
    cbn [fst snd]. f_equal. symmetry. by apply proportion_eq.
Qed.

(** ** What a computation leaves as it was *)

Section Respects.
Context (R : relation state) `{!PreOrder R}.

Lemma respects_ret {A} (a : A) : respects R (mret a).
Proof. intros s. reflexivity. Qed.

Lemma respects_bind {A B} (m : M A) (k : A -> M B) :
  respects R m -> (forall a, respects R (k a)) -> respects R (m ≫= k).
Proof.
  intros Hm Hk s. unfold mbind, M_bind. specialize (Hm s).
  destruct (m s) as [a s'|e s']; [|done].
  etrans; [exact Hm|]. apply Hk.
Qed.

Lemma respects_raise {A} e : respects R (@raise A e).
Proof. intros s. reflexivity. Qed.

Lemma respects_try {A} (o : option A) : respects R (try_ o).
Proof. destruct o; [apply respects_ret|apply respects_raise]. Qed.

Lemma respects_stop : respects R stop.
Proof. apply respects_raise. Qed.

Lemma respects_deref r : respects R (deref r).
Proof. intros s. unfold deref. destruct (heap s !! r); reflexivity. Qed.

Lemma respects_for_each {A} (f : A -> M unit) l :
  (forall x, respects R (f x)) -> respects R (for_each f l).
Proof.
  intros Hf. induction l as [|x l IH]; [apply respects_ret|].
  simpl. apply respects_bind; [apply Hf|]. intros _. exact IH.
Qed.

Lemma respects_if {A} (b : bool) (m1 m2 : M A) :
  respects R m1 -> respects R m2 -> respects R (if b then m1 else m2).
Proof. by destruct b. Qed.
End Respects.

Create HintDb respects discriminated.

#[export] Hint Resolve respects_ret respects_raise respects_try respects_stop
  respects_deref : respects.
#[export] Hint Extern 1 (_ = false) => reflexivity : respects.

(** Walk down a computation, one bind at a time. *)
Ltac respects :=
  repeat first
    [ solve [auto with respects typeclass_instances]
    | apply respects_bind; [typeclasses eauto| |intros ?]
    | apply respects_for_each; [typeclasses eauto|intros ?]
    | apply respects_if ].

Section Builders.
Context (R : relation state) `{!PreOrder R}.
Context (R_emit : forall e s, is_metric e = false -> R s (set_page (page s ++ [e]) s)).

Lemma respects_emit e : is_metric e = false -> respects R (emit e).
Proof. intros He s. by apply R_emit. Qed.

Hint Resolve respects_emit : respects.

Lemma respects_plot_gender_distribution data :
  respects R (plot_gender_distribution data).
Proof. unfold plot_gender_distribution. respects. Qed.

Lemma respects_plot_top_best_aspects data :
  respects R (plot_top_best_aspects data).
Proof. unfold plot_top_best_aspects. respects. Qed.

Lemma respects_plot_improvement data :
  respects R (plot_improvement_perception_by_gender data).
Proof. unfold plot_improvement_perception_by_gender. respects. Qed.

Section Mutators.
(** Builders that write to the table [data] and to no other. *)
Context (data : ref).
Context (R_assign : forall df s, R s (set_heap (<[data := df]> (heap s)) s)).

Lemma respects_assign df : respects R (assign data df).
Proof. intros s. apply R_assign. Qed.

Hint Resolve respects_assign : respects.

Lemma respects_setitem c v : respects R (setitem data c v).
Proof. unfold setitem. respects. Qed.

Hint Resolve respects_setitem : respects.

Lemma respects_coerce_column parse col :
  respects R (coerce_column parse data col).
Proof. unfold coerce_column. respects. Qed.

Hint Resolve respects_coerce_column : respects.

Lemma respects_clean_gpa_data parse : respects R (clean_gpa_data parse data).
Proof. unfold clean_gpa_data. respects. Qed.

Lemma respects_plot_expectation_comparison :
  respects R (plot_expectation_comparison data).
Proof. unfold plot_expectation_comparison. respects. Qed.

Lemma respects_coerce_columns parse cols :
  respects R (coerce_columns parse data cols).
Proof. unfold coerce_columns. respects. Qed.

Hint Resolve respects_coerce_columns : respects.

Lemma respects_plot_policy parse :
  respects R (plot_policy_vs_implementation_ratings parse data).
Proof. unfold plot_policy_vs_implementation_ratings. respects. Qed.
End Mutators.

Context (R_heap : forall h s, R s (set_heap h s)).

Lemma respects_new df : respects R (new df).
Proof. intros s. apply R_heap. Qed.

Hint Resolve respects_new : respects.

Lemma respects_copy r : respects R (copy r).
Proof. unfold copy. respects. Qed.

Hint Resolve respects_copy : respects.

Lemma respects_plot_gpa_trend parse data : respects R (plot_gpa_trend parse data).
Proof.
  unfold plot_gpa_trend. pose proof respects_clean_gpa_data. respects.
Qed.

Lemma respects_charts parse df : respects R (charts parse df).
Proof.
  unfold charts.
  pose proof respects_plot_gender_distribution.
  pose proof respects_plot_top_best_aspects.
  pose proof respects_plot_improvement.
  pose proof respects_plot_gpa_trend.
  pose proof respects_plot_expectation_comparison.
  pose proof respects_plot_policy.
  respects.
Qed.

Lemma respects_after_loading parse v : respects R (after_loading parse v).
Proof.
  unfold after_loading. pose proof respects_charts. destruct v; respects.
Qed.

Lemma respects_tuto_after_loading v : respects R (tuto_after_loading v).
Proof. unfold tuto_after_loading. destruct v; respects. Qed.
End Builders.

(** ** The loader and its cache *)

Section Loader.
Context (net : string -> fetch_result) (url : string) (s : state).

Lemma load_data_hit v msgs :
  cache s !! url = Some (v, msgs) ->
  load_data net url s = Ret v (set_page (page s ++ msgs) s).
Proof. intros H. unfold load_data, cache_data. by rewrite H. Qed.

Lemma load_data_fetched df :
  cache s !! url = None -> net url = Fetched df ->
  load_data net url s
  = Ret (Some df) (State (page s) (heap s) (<[url := (Some df, [])]> (cache s))
                         (fetched s ++ [url])).
Proof.
  intros H Hn. unfold load_data, cache_data. rewrite H.
  unfold load_data_body, read_csv, mbind, M_bind. rewrite Hn.
  cbn. by rewrite app_nil_r.
Qed.

Lemma load_data_failed e :
  cache s !! url = None -> net url = Failed e ->
  load_data net url s
  = Ret None (State (page s ++ [error_message e]) (heap s)
                    (<[url := (None, [error_message e])]> (cache s))
                    (fetched s ++ [url])).
Proof.
  intros H Hn. unfold load_data, cache_data. rewrite H.
  unfold load_data_body, read_csv, emit, mbind, M_bind. rewrite Hn. done.
Qed.

(** Every way a call of the loader can go. *)
Lemma load_data_cases :
  (exists v msgs, cache s !! url = Some (v, msgs)
                  /\ load_data net url s = Ret v (set_page (page s ++ msgs) s))
  \/ (exists df, cache s !! url = None /\ net url = Fetched df
                 /\ load_data net url s
                    = Ret (Some df) (State (page s) (heap s)
                                           (<[url := (Some df, [])]> (cache s))
                                           (fetched s ++ [url])))
  \/ (exists e, cache s !! url = None /\ net url = Failed e
                /\ load_data net url s
                   = Ret None (State (page s ++ [error_message e]) (heap s)
                                     (<[url := (None, [error_message e])]> (cache s))
                                     (fetched s ++ [url]))).
Proof.
  destruct (cache s !! url) as [[v msgs]|] eqn:H.
  - left. exists v, msgs. split; [done|]. by apply load_data_hit.
  - right. destruct (net url) as [df|e] eqn:Hn.
    + left. exists df. split_and!; try done. by apply load_data_fetched.
    + right. exists e. split_and!; try done. by apply load_data_failed.
Qed.

Lemma load_data_total : exists v s', load_data net url s = Ret v s'.
Proof.
  destruct load_data_cases
    as [(v & msgs & _ & H)|[(df & _ & _ & H)|(e & _ & _ & H)]]; eauto.
Qed.

(** A call of the loader keeps every entry the cache already has. *)
Lemma load_data_cache_mono v s' :
  load_data net url s = Ret v s' -> cache s ⊆ cache s'.
Proof.
  destruct load_data_cases
    as [(v' & msgs & H & ->)|[(df & H & _ & ->)|(e & H & _ & ->)]];
    intros [= <- <-]; cbn; [done| |]; by apply insert_subseteq.
Qed.



Lemma tiles_app p q : tiles (p ++ q) = (tiles p ++ tiles q)%list.
Proof. apply omap_app. Qed.

End Loader.

Lemma tuto_load_data_eq : TutoSV.load_data = load_data.
Proof. reflexivity. Qed.

(** ** Runs of the scripts *)

#[export] Instance only_renders_preorder : PreOrder only_renders.
Proof.
  split.
  - by intros s.
  - intros s1 s2 s3 (? & ? & ?) (? & ? & ?). unfold only_renders. split_and!; congruence.
Qed.

#[export] Instance same_heap_preorder : PreOrder same_heap.
Proof.
  split; [by intros s|]. intros s1 s2 s3 H1 H2. unfold same_heap in *. congruence.
Qed.

#[export] Instance stable_below_preorder n : PreOrder (stable_below n).
Proof.
  split; [by intros s|]. intros s1 s2 s3 H1 H2. unfold stable_below in *. congruence.
Qed.

Section Runs.
Lemma only_renders_emit e s :
  is_metric e = false -> only_renders s (set_page (page s ++ [e]) s).
Proof.
  intros He. split_and!; try done. cbn. rewrite tiles_app.
  destruct e; try done; cbn; by rewrite app_nil_r.
Qed.

Lemma only_renders_heap h s : only_renders s (set_heap h s).
Proof. done. Qed.

Context (parse : string -> option Q) (net : string -> fetch_result).

Lemma script_unfold c f :
  script parse net (State [] [] c f)
  = (load_data net URL ≫= after_loading parse) (State preamble_page [] c f).
Proof. reflexivity. Qed.

Lemma tuto_script_unfold c f :
  TutoSV.script net (State [] [] c f)
  = (load_data net URL ≫= tuto_after_loading) (State tuto_preamble_page [] c f).
Proof. reflexivity. Qed.


(** A run of the script: the loader's call, then the rest. *)
Lemma script_run c f :
  exists v s1,
    load_data net URL (State preamble_page [] c f) = Ret v s1
    /\ script parse net (State [] [] c f) = after_loading parse v s1
    /\ only_renders s1 (final (after_loading parse v s1)).
Proof.
  destruct (load_data_total net URL (State preamble_page [] c f)) as (v & s1 & H).
  exists v, s1. split; [exact H|].
  split; [rewrite script_unfold; unfold mbind at 1, M_bind at 1; by rewrite H|].
  apply (respects_after_loading only_renders);
    auto using only_renders_emit, only_renders_heap.
Qed.

Lemma tuto_script_run c f :
  exists v s1,
    load_data net URL (State tuto_preamble_page [] c f) = Ret v s1
    /\ TutoSV.script net (State [] [] c f) = tuto_after_loading v s1
    /\ only_renders s1 (final (tuto_after_loading v s1)).
Proof.
  destruct (load_data_total net URL (State tuto_preamble_page [] c f)) as (v & s1 & H).
  exists v, s1. split; [exact H|].
  split; [rewrite tuto_script_unfold; unfold mbind at 1, M_bind at 1; by rewrite H|].
  apply (respects_tuto_after_loading only_renders);
    auto using only_renders_emit.
Qed.
End Runs.

(** ** The life of the process *)

Section Process.
Lemma step_cache_mono s s' : step s s' -> cache s ⊆ cache s'.
Proof.
  destruct 1 as [net url s v s' H|net url s v s' H|parse net s|net s].
  - by eapply load_data_cache_mono.
  - by eapply load_data_cache_mono.
  - unfold rerun.
    destruct (script_run parse net (cache s) (fetched s)) as (v & s1 & Hl & -> & Hc & _).
    rewrite Hc. by apply load_data_cache_mono in Hl.
  - unfold rerun.
    destruct (tuto_script_run net (cache s) (fetched s)) as (v & s1 & Hl & -> & Hc & _).
    rewrite Hc. by apply load_data_cache_mono in Hl.
Qed.


(** No entry of the cache is ever dropped or replaced. *)
Lemma evolves_cache_mono s s' : evolves s s' -> cache s ⊆ cache s'.
Proof.
  induction 1 as [|s1 s2 s3 H _ IH]; [done|].
  etrans; [by apply step_cache_mono|done].
Qed.

End Process.

(** ** The loader's contract *)


(** C10.  A load that fails returns [None] after one fetch and stores
    that [None] under the locator; from then on every call with the
    locator returns [None] and shows the stored error message without
    fetching, even when the network would now deliver the table. *)
Theorem load_failure_is_cached (net : string -> fetch_result) (url e : string)
        (s : state) :
  cache s !! url = None -> net url = Failed e ->
  exists s1,
    load_data net url s = Ret None s1
    /\ fetched s1 = (fetched s ++ [url])%list
    /\ cache s1 !! url = Some (None, [error_message e])
    /\ forall s2, evolves s1 s2 ->
       forall net', exists s3,
         load_data net' url s2 = Ret None s3
         /\ fetched s3 = fetched s2
         /\ page s3 = (page s2 ++ [error_message e])%list.
Proof.
  intros Hc Hn. eexists. split; [by apply load_data_failed|].
  cbn [fetched cache]. split; [done|]. split; [by rewrite lookup_insert_eq|].
  intros s2 Hev net'.
  assert (Hc2 : cache s2 !! url = Some (None, [error_message e])).
  { eapply lookup_weaken; [|by apply evolves_cache_mono].
    cbn. by rewrite lookup_insert_eq. }
  eexists. split; [by apply load_data_hit|done].
Qed.




(** ** Which builders write to the table they are given *)

Section Frame.
Context (parse : string -> option Q) (data : ref) (s : state).

(** X1.  Three builders only read: however they end, every table
    object is what it was. *)
Lemma readers_keep_heap :
  heap (final (plot_gender_distribution data s)) = heap s
  /\ heap (final (plot_top_best_aspects data s)) = heap s
  /\ heap (final (plot_improvement_perception_by_gender data s)) = heap s.
Proof.
  split_and!.
  - by apply (respects_plot_gender_distribution same_heap).
  - by apply (respects_plot_top_best_aspects same_heap).
  - by apply (respects_plot_improvement same_heap).
Qed.

(** [plot_gpa_trend] writes to a copy: every object that was there
    before the call is as it was. *)
Lemma plot_gpa_trend_keeps_heap :
  heap s `prefix_of` heap (final (plot_gpa_trend parse data s)).
Proof.
  unfold plot_gpa_trend.
  match goal with
  | |- context [(copy data ≫= ?f) s] =>
      set (k := f);
      change ((copy data ≫= k) s)
        with (match copy data s with
              | Ret a s' => k a s'
              | Abort e s' => Abort e s'
              end)
  end.
  rewrite copy_run. destruct (heap s !! data) as [df|]; [|reflexivity].
  set (c := length (heap s)).
  assert (Hk : respects (stable_below c) (k c)).
  { subst k. cbv beta.
    assert (He : forall e s0, is_metric e = false ->
                              stable_below c s0 (set_page (page s0 ++ [e]) s0)) by done.
    assert (Ha : forall d s0, stable_below c s0 (set_heap (<[c := d]> (heap s0)) s0)).
    { intros d s0. unfold stable_below. cbn. by rewrite take_insert_ge. }
    pose proof (respects_clean_gpa_data (stable_below c) c Ha parse).
    pose proof (respects_emit (stable_below c) He).
    respects. }
  specialize (Hk (set_heap (heap s ++ [df]) s)). unfold stable_below in Hk.
  cbn [heap set_heap] in Hk. subst c. rewrite take_app_length in Hk.
  rewrite <- Hk at 1. apply prefix_take.
Qed.
End Frame.

(** C1 at its failing inputs.  [plot_expectation_comparison] adds the
    column "Mean Expectation" to the very table it was passed, and
    [plot_policy_vs_implementation_ratings] overwrites the rating
    columns of the table it was passed with their coerced values. *)
Theorem plot_expectation_comparison_mutates_table :
  heap (final (plot_expectation_comparison 0 (State [] [one_respondent] ∅ [])))
  = [(one_respondent ++ [("Mean Expectation", [Num 4%Q])])%list]
  /\ heap (final (plot_policy_vs_implementation_ratings sample_parse 0
                    (State [] [one_rating] ∅ [])))
     = [[("Area of Evaluation 1", [NaN])]].
Proof. split; reflexivity. Qed.

(** ** What a run asks of the network *)

Section Fetches.
Context (parse : string -> option Q) (net : string -> fetch_result) (s : state).


End Fetches.

(** ** Tables that lack a column *)

Section MissingColumns.
Context (parse : string -> option Q).

Lemma coerce_loop_missing data cs : forall s df,
  heap s !! data = Some df ->
  (exists c, c ∈ cs /\ getcol c df = None) ->
  exists s', for_each (coerce_column parse data) cs s = Abort Uncaught s'
             /\ page s' = page s.
Proof.
  induction cs as [|c0 cs IH]; intros s df Hd (c & Hc & Hnone).
  { by apply elem_of_nil in Hc. }
  cbn [for_each]. unfold mbind at 1, M_bind at 1.
  destruct (getcol c0 df) as [v|] eqn:Hv.
  - erewrite coerce_column_run by done.
    destruct (IH (set_heap (<[data := coerce_step parse df c0]> (heap s)) s)
                 (coerce_step parse df c0)) as (s' & Hrun & Hpage).
    + cbn. apply list_lookup_insert_eq. by eapply lookup_lt_Some.
    + exists c. apply elem_of_cons in Hc as [->|Hc]; [congruence|].
      split; [done|]. rewrite getcol_coerce_step by (by eexists).
      destruct (String.eqb c0 c) eqn:E; [|done].
      apply String.eqb_eq in E as ->. congruence.
    + exists s'. by rewrite Hrun.
  - exists s. split; [|done].
    unfold coerce_column, deref, mbind, M_bind. by rewrite Hd, Hv.
Qed.

(** X7.  A table that lacks one of the twelve semester columns makes
    [clean_gpa_data] raise, and makes [plot_gpa_trend] raise before it
    has put anything on the page. *)
Theorem clean_gpa_data_missing_column (data : ref) (s : state) (df : DataFrame) (c : string) :
  heap s !! data = Some df ->
  c ∈ gpa_cols -> getcol c df = None ->
  (exists s', clean_gpa_data parse data s = Abort Uncaught s' /\ page s' = page s)
  /\ (exists s', plot_gpa_trend parse data s = Abort Uncaught s' /\ page s' = page s).
Proof.
  intros Hd Hc Hnone. split.
  - destruct (coerce_loop_missing data gpa_cols s df Hd) as (s' & Hrun & Hpage); [eauto|].
    exists s'. split; [|done].
    unfold clean_gpa_data. unfold mbind at 1, M_bind at 1. by rewrite Hrun.
  - unfold plot_gpa_trend.
    match goal with
    | |- context [(copy data ≫= ?f) s] =>
        set (k := f);
        change ((copy data ≫= k) s)
          with (match copy data s with
                | Ret a s' => k a s'
                | Abort e s' => Abort e s'
                end)
    end.
    rewrite copy_run, Hd. subst k. cbv beta.
    destruct (coerce_loop_missing (length (heap s)) gpa_cols
                (set_heap (heap s ++ [df]) s) df) as (s' & Hrun & Hpage).
    + cbn. by rewrite lookup_app_r, Nat.sub_diag.
    + eauto.
    + exists s'. split; [|done].
      unfold clean_gpa_data, mbind, M_bind. by rewrite Hrun.
Qed.
End MissingColumns.

(** ** The table the loader returned, through a run *)

#[export] Instance keeps_loaded_preorder : PreOrder keeps_loaded.
Proof.
  split; [by intros s t|]. intros s1 s2 s3 H1 H2 t Ht. by apply H2, H1.
Qed.

#[export] Instance page_grows_preorder : PreOrder page_grows.
Proof.
  split; [intros s; unfold page_grows; done|].
  intros s1 s2 s3 H1 H2. unfold page_grows in *. by etrans.
Qed.



Lemma bind_emit {A} e (k : unit -> M A) st :
  (emit e ≫= k) st = k tt (set_page (page st ++ [e]) st).
Proof. reflexivity. Qed.

Section Loaded.
Context (parse : string -> option Q).

(** X2.  [plot_gpa_trend] works on a copy: however it ends, every
    table object that existed when it was called is what it was. *)
Theorem plot_gpa_trend_works_on_a_copy (data : ref) (s : state) :
  take (length (heap s)) (heap (final (plot_gpa_trend parse data s))) = heap s.
Proof.
  destruct (plot_gpa_trend_keeps_heap parse data s) as [k ->].
  by rewrite take_app_length.
Qed.





Context (net : string -> fetch_result) (s : state).






(** X10.  In [tuto_sv.py] a loaded table without a Gender column ends
    the run in an uncaught exception after the preview and the chart's
    heading: there is no chart, and the sidebar note is not reached. *)
Theorem tuto_missing_gender_column_stops_run t s1 :
  TutoSV.load_data net TutoSV.URL
    (State tuto_preamble_page [] (cache s) (fetched s)) = Ret (Some t) s1 ->
  getcol "Gender" t = None ->
  exists sf,
    TutoSV.script net (State [] [] (cache s) (fetched s)) = Abort Uncaught sf
    /\ page sf = (page s1 ++ [ Subheader "Raw Data Preview"; Dataframe (TutoSV.head t);
                               Subheader "Distribution of Gender in Arts Faculty" ])%list.
Proof.
  intros Hl Hg. eexists.
  rewrite tuto_script_unfold. unfold mbind at 1, M_bind at 1.
  change (load_data net URL) with (TutoSV.load_data net TutoSV.URL). rewrite Hl.
  unfold tuto_after_loading. unfold mbind at 1, M_bind at 1.
  rewrite !bind_emit. unfold TutoSV.gender_counts.
  unfold mbind at 2, option_bind. rewrite Hg. split; [reflexivity|].
  cbn. by rewrite <- !app_assoc.
Qed.

Lemma getcol_head c t : getcol c (TutoSV.head t) = take 5 <$> getcol c t.
Proof.
  unfold TutoSV.head. induction t as [|[k v] t IH]; [done|].
  simpl. by destruct (String.eqb k c).
Qed.

(** X13.  On a loaded table with a Gender column the run of
    [tuto_sv.py] completes: after what was on the page come the
    preview, the pie chart and the sidebar note.  The preview holds
    the first five cells of every column, while the chart counts the
    whole Gender column: its counts add up to the number of values
    present there. *)
Theorem tuto_run_on_loaded_table t s1 gender :
  TutoSV.load_data net TutoSV.URL
    (State tuto_preamble_page [] (cache s) (fetched s)) = Ret (Some t) s1 ->
  getcol "Gender" t = Some gender ->
  exists counts sf,
    TutoSV.script net (State [] [] (cache s) (fetched s)) = Ret tt sf
    /\ page sf = (page s1 ++ [ Subheader "Raw Data Preview"; Dataframe (TutoSV.head t);
                               Subheader "Distribution of Gender in Arts Faculty";
                               PlotlyChart (Pie "Distribution of Gender in Arts Faculty" counts);
                               SidebarInfo TutoSV.run_instructions ])%list
    /\ counts_cover gender counts
    /\ forall c, getcol c (TutoSV.head t) = take 5 <$> getcol c t.
Proof.
  intros Hl Hg. exists (value_counts gender). eexists.
  rewrite tuto_script_unfold. unfold mbind at 1, M_bind at 1.
  change (load_data net URL) with (TutoSV.load_data net TutoSV.URL). rewrite Hl.
  unfold tuto_after_loading. unfold mbind at 1, M_bind at 1.
  rewrite !bind_emit. unfold TutoSV.gender_counts.
  unfold mbind at 2, option_bind. rewrite Hg. split_and!.
  - reflexivity.
  - cbn. by rewrite <- !app_assoc.
  - apply sum_value_counts.
  - intros c. apply getcol_head.
Qed.
End Loaded.

(** ** What [plot_expectation_comparison] writes *)

Section ExpectationFrame.
Context (data : ref) (s : state).

Lemma plot_expectation_comparison_heap :
  heap (final (plot_expectation_comparison data s)) = heap s
  \/ exists df me,
       heap s !! data = Some df
       /\ heap (final (plot_expectation_comparison data s))
          = <[data := setcol "Mean Expectation" me df]> (heap s).
Proof.
  unfold plot_expectation_comparison, setitem, deref, assign, emit, try_, raise,
    mbind, M_bind, mret, M_ret.
  destruct (heap s !! data) as [df|] eqn:Hd; [|by left].
  destruct (select expectation_cols df) as [sel|]; [|by left].
  destruct (mean_axis1 (nrows df) (map snd sel)) as [me|]; [|by left].
  cbn [heap set_heap]. rewrite Hd. cbn [heap set_heap].
  rewrite list_lookup_insert_eq by (by eapply lookup_lt_Some).
  right. exists df, me. split; [done|].
  by destruct (expectation_plot_data _).
Qed.

(** X3.  However it ends, [plot_expectation_comparison] changes
    nothing but the column "Mean Expectation" of the table it was
    passed: every other table object and every other column of that
    table is what it was. *)
Theorem plot_expectation_comparison_writes_one_column :
  (forall r, r <> data ->
     heap (final (plot_expectation_comparison data s)) !! r = heap s !! r)
  /\ (forall c, c <> "Mean Expectation" ->
        (heap (final (plot_expectation_comparison data s)) !! data ≫= getcol c)
        = (heap s !! data ≫= getcol c)).
Proof.
  destruct plot_expectation_comparison_heap as [->|(df & me & Hd & ->)]; [done|].
  split.
  - intros r Hr. by rewrite list_lookup_insert_ne.
  - intros c Hc. rewrite list_lookup_insert_eq by (by eapply lookup_lt_Some).
    rewrite Hd. cbn. rewrite getcol_setcol.
    destruct (String.eqb "Mean Expectation" c) eqn:E; [|done].
    apply String.eqb_eq in E. congruence.
Qed.
End ExpectationFrame.

(** ** Means within a range *)

Section Means.
Context (lo hi : Q).







Context (parse : string -> option Q).



End Means.

(** ** The rating averages *)

Section Policy.
Context (parse : string -> option Q).











Context (df : DataFrame).









End Policy.

(** ** The theorems at sample inputs *)

(** Settle that a sample table has the columns a builder reads. *)
Ltac columns_present :=
  let c := fresh "c" in
  let Hc := fresh "Hc" in
  intros c Hc;
  repeat (apply elem_of_cons in Hc as [->|Hc]; [eexists; reflexivity|]);
  apply elem_of_nil in Hc; destruct Hc.

Ltac columns_numeric :=
  let c := fresh "c" in
  let Hc := fresh "Hc" in
  intros c Hc;
  repeat (apply elem_of_cons in Hc as [->|Hc]; [repeat constructor|]);
  apply elem_of_nil in Hc; destruct Hc.

Lemma clean_gpa_data_witness :
  has_columns gpa_cols two_transcripts
  /\ exists s',
       clean_gpa_data sample_parse 0 (State [] [two_transcripts] ∅ [])
       = Ret [(Some "1Y S1", Num (7 # 2))] s'.
Proof.
  assert (Hp : has_columns gpa_cols two_transcripts) by columns_present.
  split; [exact Hp|].
  destruct (clean_gpa_data_ordered_and_defined sample_parse 0
              (State [] [two_transcripts] ∅ []) two_transcripts eq_refl Hp)
    as (out & s' & Hrun & _).
  exists s'. rewrite Hrun. f_equal.
  vm_compute in Hrun. injection Hrun as <- _. reflexivity.
Defined.

Lemma expectation_rows_witness :
  has_columns (satisfaction_col :: expectation_cols) skipped_q1
  /\ numeric_columns expectation_cols skipped_q1
  /\ exists rows caption s',
       plot_expectation_comparison 0 (State [] [skipped_q1] ∅ []) = Ret tt s'
       /\ page s' = [PlotlyChart (Box box_title rows); Info caption]
       /\ (0, "Average Initial Expectation",
           Num (Qmean (row_numbers skipped_q1 expectation_cols 0))) ∈ rows.
Proof.
  assert (Hp : has_columns (satisfaction_col :: expectation_cols) skipped_q1)
    by columns_present.
  assert (Hn : numeric_columns expectation_cols skipped_q1) by columns_numeric.
  split; [exact Hp|]. split; [exact Hn|].
  destruct (expectation_rows_skip_missing_values 0 (State [] [skipped_q1] ∅ [])
              skipped_q1 eq_refl Hp Hn)
    as (rows & caption & s' & Hrun & Hpage & _ & Hrows).
  exists rows, caption, s'. split; [exact Hrun|]. split; [exact Hpage|].
  apply (Hrows 0); [cbn; lia|]. discriminate.
Defined.



Lemma load_failure_is_cached_witness :
  cache boot !! URL = None
  /\ no_network URL = Failed "timed out"
  /\ exists s1 s3,
       load_data no_network URL boot = Ret None s1
       /\ load_data network_up URL s1 = Ret None s3
       /\ fetched s3 = fetched s1.
Proof.
  split; [reflexivity|]. split; [reflexivity|].
  destruct (load_failure_is_cached no_network URL "timed out" boot eq_refl eq_refl)
    as (s1 & Hl & _ & _ & Hlater).
  destruct (Hlater s1 (rtc_refl _ _) network_up) as (s3 & H1 & H2 & _).
  by exists s1, s3.
Defined.

Lemma count_aggregators_sum_witness :
  getcol "Gender" small_survey = Some [Str "F"; Str "F"; Str "M"]
  /\ getcol aspect_column small_survey
     = Some [Str "Faculty"; Str "Library"; Str "Faculty"; NaN]
  /\ exists out, gender_counts small_survey = Some out
                 /\ counts_cover [Str "F"; Str "F"; Str "M"] out.
Proof.
  split; [reflexivity|]. split; [reflexivity|].
  exact (proj1 (count_aggregators_sum small_survey _ _ eq_refl eq_refl)).
Defined.


Lemma proportion_yes_witness :
  has_columns ["Gender"; q_edu; q_img] three_answers
  /\ exists rows caption,
       plot_improvement_perception_by_gender 0 (State [] [three_answers] ∅ [])
       = Ret tt (State [PlotlyChart (GroupedBar improvement_title rows); Info caption]
                       [three_answers] ∅ [])
       /\ forall g q p, (g, q, p) ∈ rows ->
            exists c, p = Num (yes_fraction three_answers c g)
                      /\ (0 <= yes_fraction three_answers c g)%Q
                      /\ (yes_fraction three_answers c g <= 1)%Q.
Proof.
  assert (Hp : has_columns ["Gender"; q_edu; q_img] three_answers) by columns_present.
  split; [exact Hp|].
  destruct (proportion_yes_by_gender 0 (State [] [three_answers] ∅ []) three_answers
              eq_refl Hp) as (rows & caption & Hrun & Hrows & _).
  exists rows, caption. split; [exact Hrun|].
  intros g q p Hin. destruct (Hrows g q p Hin) as (c & _ & _ & _ & _ & ? & ? & ?).
  by exists c.
Defined.


(** *** Further sample runs *)



Lemma clean_gpa_data_missing_column_witness :
  (exists s', clean_gpa_data sample_parse 0 (State [] [three_genders] ∅ [])
              = Abort Uncaught s' /\ page s' = [])
  /\ (exists s', plot_gpa_trend sample_parse 0 (State [] [three_genders] ∅ [])
                 = Abort Uncaught s' /\ page s' = []).
Proof.
  apply (clean_gpa_data_missing_column sample_parse 0 (State [] [three_genders] ∅ [])
           three_genders "1st Year Semester 1").
  - reflexivity.
  - left.
  - reflexivity.
Defined.



Lemma tuto_missing_gender_column_witness :
  exists s1 sf,
    TutoSV.load_data ratings_served TutoSV.URL (State tuto_preamble_page [] ∅ [])
    = Ret (Some two_ratings) s1
    /\ TutoSV.script ratings_served boot = Abort Uncaught sf
    /\ page sf = (page s1 ++ [ Subheader "Raw Data Preview";
                               Dataframe (TutoSV.head two_ratings);
                               Subheader "Distribution of Gender in Arts Faculty" ])%list.
Proof.
  pose proof (load_data_fetched ratings_served URL (State tuto_preamble_page [] ∅ [])
                two_ratings eq_refl eq_refl) as Hl.
  destruct (tuto_missing_gender_column_stops_run ratings_served boot
              two_ratings _ Hl eq_refl) as (sf & Hrun & Hpage).
  eexists _, sf. split; [exact Hl|]. split; [exact Hrun|exact Hpage].
Defined.

Lemma tuto_run_on_loaded_table_witness :
  exists s1 counts sf,
    TutoSV.load_data students_served TutoSV.URL (State tuto_preamble_page [] ∅ [])
    = Ret (Some seven_students) s1
    /\ TutoSV.script students_served boot = Ret tt sf
    /\ page sf = (page s1 ++ [ Subheader "Raw Data Preview";
                               Dataframe (TutoSV.head seven_students);
                               Subheader "Distribution of Gender in Arts Faculty";
                               PlotlyChart (Pie "Distribution of Gender in Arts Faculty" counts);
                               SidebarInfo TutoSV.run_instructions ])%list
    /\ sum_list (map snd counts) = 6
    /\ nrows (TutoSV.head seven_students) = 5.
Proof.
  pose proof (load_data_fetched students_served URL (State tuto_preamble_page [] ∅ [])
                seven_students eq_refl eq_refl) as Hl.
  destruct (tuto_run_on_loaded_table students_served boot seven_students _
              [Str "F"; Str "F"; Str "M"; Str "F"; NaN; Str "M"; Str "F"] Hl eq_refl)
    as (counts & sf & Hrun & Hpage & Hsum & _).
  eexists _, counts, sf. split; [exact Hl|]. split; [exact Hrun|].
  split; [exact Hpage|]. split; [exact Hsum|reflexivity].
Defined.




